(** * Templates client of the splits SDK: the createRecoup pipeline

    Shallow embedding of [TemplatesTransactions], [TemplatesClient],
    [TemplatesGasEstimates] and [TemplatesCallData] (the templates client
    module), followed by the properties of the execution pipeline that
    every variant funnels through. *)

From stdpp Require Import base option list strings gmap sorting pretty.
From Stdlib Require Import Ascii ZArith Lia.


(** ** Errors and completions *)

(** The classes of [../errors] that the client and its tests name, plus the
    plain JavaScript [Error] thrown with a message. [ValidationError] is the
    name section 7 of the specification gives to the single-field failure
    of a validator. *)
Inductive SdkError : Type :=
  | InvalidArgumentError (message : string)
  | ValidationError (field constraint : string)
  | InvalidConfigError
  | MissingProviderError
  | MissingSignerError
  | UnsupportedChainIdError (chainId : Z) (supportedChains : list Z)
  | TransactionFailedError
  | Error (message : string).

(** How a call ends: it returns a value (a resolved promise) or throws (a
    rejected one). *)
Inductive Completion (A : Type) : Type :=
  | Returned (a : A)
  | Thrown (e : SdkError).
Arguments Returned {A} a.
Arguments Thrown {A} e.

#[global] Instance Completion_ret : MRet Completion := @Returned.
#[global] Instance Completion_bind : MBind Completion := fun A B f c =>
  match c with
  | Returned a => f a
  | Thrown e => Thrown e
  end.

(** ** Data *)

Module TransactionType.
Inductive t : Type := Transaction | GasEstimate | CallData.

Definition eqb (a b : t) : bool :=
  match a, b with
  | Transaction, Transaction | GasEstimate, GasEstimate | CallData, CallData => true
  | _, _ => false
  end.
End TransactionType.

Inductive Provider : Type := MkProvider (name : string).
Inductive Signer : Type := MkSigner (name : string).

Definition AddressZero : string := "0x0000000000000000000000000000000000000000".

(** Decoded arguments of a CreateRecoup log. *)
Record EventArgs : Type := { waterfallModule : string }.

(** A log of a mined transaction: [args] is absent when the log could not
    be decoded. *)
Record Event : Type := {
  blockNumber : Z;
  topic : string;
  args : option EventArgs;
}.

Record TransactionReceipt : Type := { logs : list Event }.

Record ContractTransaction : Type := {
  hash : string;
  wait : Completion TransactionReceipt;
}.

Record CallData : Type := {
  address : string;
  value : Z;
  data : string;
}.

(** [TransactionFormat]: what the contract object of a client hands back. *)
Inductive TransactionFormat : Type :=
  | TxContractTransaction (tx : ContractTransaction)
  | TxBigNumber (gas : Z)
  | TxCallData (callData : CallData).

Record SplitsClientConfig : Type := {
  chainId : Z;
  provider : option Provider;
  ensProvider : option Provider;
  signer : option Signer;
  includeEnsNames : option bool;
}.

Section Templates.

(** The tranche types of [../types] and of the Recoup contract are opaque
    to this module. *)
Context {RecoupTrancheInput ContractRecoupTranche : Type}.

Record CreateRecoupConfig : Type := {
  token : string;
  tranches : list RecoupTrancheInput;
  nonWaterfallRecipientAddress : option string;
  nonWaterfallRecipientTrancheIndex : option Z;
}.

(** The positional arguments of the contract's [createRecoup]. *)
Record CreateRecoupArgs : Type := {
  arg_token : string;
  arg_nonWaterfallRecipientAddress : string;
  arg_nonWaterfallRecipientTrancheIndex : option Z;
  arg_recoupTranches : list ContractRecoupTranche;
  arg_trancheSizes : list Z;
}.

(** Calls that leave the client, in the order they are made. *)
Inductive Call : Type :=
  | CallGetRecoupTranchesAndSizes (chain : Z) (tok : string)
      (ts : list RecoupTrancheInput) (p : Provider)
  | CallCreateRecoup (kind : TransactionType.t) (target : string)
      (a : CreateRecoupArgs)
  | CallWait (tx : ContractTransaction).

(** The client monad: a completion together with the calls made so far. *)
Definition M (A : Type) : Type := list Call -> Completion A * list Call.

#[local] Instance M_ret : MRet M := fun A a calls => (Returned a, calls).
#[local] Instance M_bind : MBind M := fun A B f c calls =>
  match c calls with
  | (Returned a, calls') => f a calls'
  | (Thrown e, calls') => (Thrown e, calls')
  end.

Definition throw {A} (e : SdkError) : M A := fun calls => (Thrown e, calls).

(** A synchronous, side-effect-free step. *)
Definition lift {A} (c : Completion A) : M A := fun calls => (c, calls).

(** A call to a collaborator, recorded before its completion is seen. *)
Definition perform {A} (c : Call) (r : Completion A) : M A :=
  fun calls => (r, (calls ++ [c])).

(** What is imported from outside the module and is not part of it. *)
Record Collaborators : Type := {
  (** [TEMPLATES_CHAIN_IDS] of [../constants] *)
  TEMPLATES_CHAIN_IDS : list Z;
  (** [getRecoupAddress] of [../constants] *)
  getRecoupAddress : Z -> string;
  (** [recoupInterface.getEventTopic] *)
  getEventTopic : string -> string;
  (** checksum validity of a 20-byte hexadecimal address *)
  checksumValid : string -> bool;
  (** [validateRecoupTranches] of [../utils/validation] *)
  validateRecoupTranches : list RecoupTrancheInput -> Completion unit;
  (** [getRecoupTranchesAndSizes] of [../utils] *)
  getRecoupTranchesAndSizes :
    Z -> string -> list RecoupTrancheInput -> Provider ->
    Completion (list ContractRecoupTranche * list Z);
  (** configuration checks of the inherited constructor *)
  baseConfigCheck : TransactionType.t -> SplitsClientConfig -> Completion unit;
  (** the Recoup contract behind each kind of contract object *)
  recoupCreateRecoup :
    TransactionType.t -> string -> CreateRecoupArgs -> Completion TransactionFormat;
}.

Variable E : Collaborators.

(** *** [../utils/validation] *)

Definition isHexDigit (c : ascii) : bool :=
  let n := nat_of_ascii c in
  (((48 <=? n) && (n <=? 57)) || ((65 <=? n) && (n <=? 70))
   || ((97 <=? n) && (n <=? 102)))%nat.

Fixpoint allHex (s : string) : bool :=
  match s with
  | EmptyString => true
  | String c s' => isHexDigit c && allHex s'
  end.

Definition isAddress (a : string) : bool :=
  match a with
  | String "0"%char (String "x"%char body) =>
      (String.length body =? 40)%nat && allHex body && checksumValid E a
  | _ => false
  end.

(** Modelled from the spec: [validateAddress] of [../utils/validation] is
    missing from the sources. Section 4.2: a validator returns normally or
    fails with a [ValidationError] carrying the field and the violated
    constraint, here "address must be 20 bytes / checksum-valid". *)
Definition validateAddress (a : string) : Completion unit :=
  if isAddress a then Returned ()
  else Thrown (ValidationError "address" "address must be 20 bytes / checksum-valid").

(** Modelled from the spec: [validateRecoupNonWaterfallRecipient] of
    [../utils/validation] is missing from the sources. Section 4.2: the
    tranche index must be undefined exactly when the recipient address is
    the zero sentinel, and must reference a valid tranche index otherwise;
    mismatches fail with [InvalidArgumentError]. *)
Definition validateRecoupNonWaterfallRecipient (numTranches : nat)
    (recipient : string) (trancheIndex : option Z) : Completion unit :=
  if String.eqb recipient AddressZero then
    match trancheIndex with
    | None => Returned ()
    | Some _ =>
        Thrown (InvalidArgumentError
          "tranche index must be undefined for the zero address")
    end
  else
    match trancheIndex with
    | None =>
        Thrown (InvalidArgumentError
          "tranche index required for a non-waterfall recipient")
    | Some i =>
        if ((0 <=? i) && (i <? Z.of_nat numTranches))%Z then Returned ()
        else Thrown (InvalidArgumentError "tranche index out of range")
    end.

(** *** [./base] *)

Record RecoupContract : Type := {
  contractKind : TransactionType.t;
  contractAddress : string;
}.

(** The object state of a [TemplatesTransactions]: the fields inherited
    from [BaseTransactions] and its own contract object. *)
Record TemplatesTransactions : Type := {
  _transactionType : TransactionType.t;
  _chainId : Z;
  _provider : option Provider;
  _ensProvider : option Provider;
  _signer : option Signer;
  _includeEnsNames : bool;
  _shouldRequireSigner : bool;
  _recoupContract : RecoupContract;
}.

(** Modelled from the spec: [BaseTransactions] of [./base] is missing from
    the sources. Section 4.4, precondition 1: a provider must be
    configured, else [MissingProviderError]. *)
Definition _requireProvider (this : TemplatesTransactions) : M unit :=
  match _provider this with
  | Some _ => mret ()
  | None => throw MissingProviderError
  end.

(** Modelled from the spec: [BaseTransactions] of [./base] is missing from
    the sources. Section 4.4, precondition 2: a signer must be configured,
    else [MissingSignerError]. *)
Definition _requireSigner (this : TemplatesTransactions) : M unit :=
  match _signer this with
  | Some _ => mret ()
  | None => throw MissingSignerError
  end.

(** Modelled from the spec: the type guards of [./base] are missing from
    the sources. Section 3, TransactionResult: a tagged union, a pending
    transaction for Execute, a gas quantity for EstimateGas, a call-data
    object for BuildCallData. *)
Definition _isContractTransaction (r : TransactionFormat) : bool :=
  match r with TxContractTransaction _ => true | _ => false end.

Definition _isBigNumber (r : TransactionFormat) : bool :=
  match r with TxBigNumber _ => true | _ => false end.

Definition _isCallData (r : TransactionFormat) : bool :=
  match r with TxCallData _ => true | _ => false end.

(** Modelled from the spec: [_getTransactionContract] of [./base] is
    missing from the sources. Section 4.4: one contract object per
    execution mode, bound to the resolved address. *)
Definition _getTransactionContract (ty : TransactionType.t) (addr : string)
    : RecoupContract :=
  {| contractKind := ty; contractAddress := addr |}.

Definition contract_createRecoup (c : RecoupContract) (a : CreateRecoupArgs)
    : M TransactionFormat :=
  perform (CallCreateRecoup (contractKind c) (contractAddress c) a)
          (recoupCreateRecoup E (contractKind c) (contractAddress c) a).

(** *** [TemplatesTransactions] *)

Definition _getRecoupContract (ty : TransactionType.t) (chain : Z) : RecoupContract :=
  _getTransactionContract ty (getRecoupAddress E chain).

(** The constructors hand [includeEnsNames] on with its default filled in. *)
Definition withDefaults (config : SplitsClientConfig) : SplitsClientConfig :=
  {| chainId := chainId config;
     provider := provider config;
     ensProvider := ensProvider config;
     signer := signer config;
     includeEnsNames := Some (default false (includeEnsNames config)) |}.

(** Modelled from the spec: the constructor of [BaseTransactions] is
    missing from the sources; its configuration checks are the
    collaborator [baseConfigCheck]. Section 4.4, precondition 2: the
    signer is required when the mode is Execute. *)
Definition TemplatesTransactions_new (transactionType : TransactionType.t)
    (config : SplitsClientConfig) : M TemplatesTransactions :=
  let config := withDefaults config in
  _ ← lift (baseConfigCheck E transactionType config);
  mret {|
    _transactionType := transactionType;
    _chainId := chainId config;
    _provider := provider config;
    _ensProvider := ensProvider config;
    _signer := signer config;
    _includeEnsNames := default false (includeEnsNames config);
    _shouldRequireSigner :=
      TransactionType.eqb transactionType TransactionType.Transaction;
    _recoupContract := _getRecoupContract transactionType (chainId config);
  |}.

Definition _createRecoupTransaction (this : TemplatesTransactions)
    (config : CreateRecoupConfig) : M TransactionFormat :=
  let token := token config in
  let tranches := tranches config in
  let nonWaterfallRecipientAddress :=
    default AddressZero (nonWaterfallRecipientAddress config) in
  let nonWaterfallRecipientTrancheIndex :=
    nonWaterfallRecipientTrancheIndex config in
  _ ← lift (validateAddress token);
  _ ← lift (validateAddress nonWaterfallRecipientAddress);
  _ ← lift (validateRecoupTranches E tranches);
  _ ← lift (validateRecoupNonWaterfallRecipient (length tranches)
              nonWaterfallRecipientAddress nonWaterfallRecipientTrancheIndex);
  _ ← _requireProvider this;
  match _provider this with
  | None => throw (Error "Provider required")
  | Some provider =>
      _ ← (if _shouldRequireSigner this then _requireSigner this else mret ());
      '(recoupTranches, trancheSizes) ←
        perform (CallGetRecoupTranchesAndSizes (_chainId this) token tranches provider)
                (getRecoupTranchesAndSizes E (_chainId this) token tranches provider);
      createRecoupResult ←
        contract_createRecoup (_recoupContract this) {|
          arg_token := token;
          arg_nonWaterfallRecipientAddress := nonWaterfallRecipientAddress;
          arg_nonWaterfallRecipientTrancheIndex := nonWaterfallRecipientTrancheIndex;
          arg_recoupTranches := recoupTranches;
          arg_trancheSizes := trancheSizes;
        |};
      mret createRecoupResult
  end.

(** *** [../utils] *)

(** Modelled from the spec: [getTransactionEvents] of [../utils] is missing
    from the sources. Section 4.5: await the mined transaction, scan its
    logs in order and keep those whose topic matches any of the candidate
    topics; nothing is kept when no log matches. *)
Definition getTransactionEvents (transaction : ContractTransaction)
    (eventTopics : list string) : M (list Event) :=
  receipt ← perform (CallWait transaction) (wait transaction);
  mret (filter (fun e => topic e ∈ eventTopics) (logs receipt)).

(** *** [TemplatesGasEstimates] *)

Record TemplatesGasEstimates : Type := {
  gasEstimates_super : TemplatesTransactions;
}.

Definition explicitConfig (config : CreateRecoupConfig) : CreateRecoupConfig :=
  {| token := token config;
     tranches := tranches config;
     nonWaterfallRecipientAddress :=
       Some (default AddressZero (nonWaterfallRecipientAddress config));
     nonWaterfallRecipientTrancheIndex :=
       nonWaterfallRecipientTrancheIndex config |}.

Definition TemplatesGasEstimates_new (config : SplitsClientConfig)
    : M TemplatesGasEstimates :=
  super ← TemplatesTransactions_new TransactionType.GasEstimate (withDefaults config);
  mret {| gasEstimates_super := super |}.

Definition TemplatesGasEstimates_createRecoup (this : TemplatesGasEstimates)
    (config : CreateRecoupConfig) : M Z :=
  gasEstimate ← _createRecoupTransaction (gasEstimates_super this) (explicitConfig config);
  if negb (_isBigNumber gasEstimate) then throw (Error "Invalid response")
  else
    match gasEstimate with
    | TxBigNumber n => mret n
    | _ => throw (Error "Invalid response")
    end.

(** *** [TemplatesCallData] *)

Record TemplatesCallData : Type := {
  callData_super : TemplatesTransactions;
}.

Definition TemplatesCallData_new (config : SplitsClientConfig)
    : M TemplatesCallData :=
  super ← TemplatesTransactions_new TransactionType.CallData (withDefaults config);
  mret {| callData_super := super |}.

Definition TemplatesCallData_createRecoup (this : TemplatesCallData)
    (config : CreateRecoupConfig) : M CallData :=
  callData ← _createRecoupTransaction (callData_super this) (explicitConfig config);
  if negb (_isCallData callData) then throw (Error "Invalid response")
  else
    match callData with
    | TxCallData c => mret c
    | _ => throw (Error "Invalid response")
    end.

(** *** [TemplatesClient] *)

Record TemplatesClient : Type := {
  client_super : TemplatesTransactions;
  eventTopics : gmap string (list string);
  callData : TemplatesCallData;
  estimateGas : TemplatesGasEstimates;
}.

Definition TemplatesClient_new (config : SplitsClientConfig) : M TemplatesClient :=
  super ← TemplatesTransactions_new TransactionType.Transaction (withDefaults config);
  if negb (bool_decide (chainId config ∈ TEMPLATES_CHAIN_IDS E)) then
    throw (UnsupportedChainIdError (chainId config) (TEMPLATES_CHAIN_IDS E))
  else
    let eventTopics : gmap string (list string) :=
      {[ "createRecoup" := [getEventTopic E "CreateRecoup"] ]} in
    callData ← TemplatesCallData_new (withDefaults config);
    estimateGas ← TemplatesGasEstimates_new (withDefaults config);
    mret {| client_super := super;
            eventTopics := eventTopics;
            callData := callData;
            estimateGas := estimateGas |}.

Record SubmitResult : Type := { tx : ContractTransaction }.

Definition submitCreateRecoupTransaction (this : TemplatesClient)
    (config : CreateRecoupConfig) : M SubmitResult :=
  createRecoupTx ← _createRecoupTransaction (client_super this) (explicitConfig config);
  if negb (_isContractTransaction createRecoupTx) then throw (Error "Invalid response")
  else
    match createRecoupTx with
    | TxContractTransaction t => mret {| tx := t |}
    | _ => throw (Error "Invalid response")
    end.

Record CreateRecoupResult : Type := {
  waterfallModuleId : string;
  event : Event;
}.

Definition TemplatesClient_createRecoup (this : TemplatesClient)
    (config : CreateRecoupConfig) : M CreateRecoupResult :=
  r ← submitCreateRecoupTransaction this (explicitConfig config);
  events ← getTransactionEvents (tx r) (eventTopics this !!! "createRecoup");
  let event := if (0 <? length events)%nat then events !! 0%nat else None in
  match event with
  | Some ev =>
      match args ev with
      | Some a => mret {| waterfallModuleId := waterfallModule a; event := ev |}
      | None => throw TransactionFailedError
      end
  | None => throw TransactionFailedError
  end.

(** Construct a client and call [createRecoup] on it (the end-to-end
    scenario). *)
Definition createRecoupScenario (clientConfig : SplitsClientConfig)
    (config : CreateRecoupConfig) : M CreateRecoupResult :=
  client ← TemplatesClient_new clientConfig;
  TemplatesClient_createRecoup client config.

(** The argument tuples handed to the contract's [createRecoup]. *)
Fixpoint createRecoupCalls (calls : list Call) : list CreateRecoupArgs :=
  match calls with
  | [] => []
  | CallCreateRecoup _ _ a :: rest => a :: createRecoupCalls rest
  | _ :: rest => createRecoupCalls rest
  end.

(** *** Reading aids for the statements below *)

(** The validation prefix of [_createRecoupTransaction], as one step. *)
Definition validateCreateRecoup (config : CreateRecoupConfig) : Completion unit :=
  let recipient := default AddressZero (nonWaterfallRecipientAddress config) in
  _ ← validateAddress (token config);
  _ ← validateAddress recipient;
  _ ← validateRecoupTranches E (tranches config);
  validateRecoupNonWaterfallRecipient (length (tranches config)) recipient
    (nonWaterfallRecipientTrancheIndex config).

(** The tuple [_createRecoupTransaction] builds for the contract. *)
Definition createRecoupArgsOf (config : CreateRecoupConfig)
    (recoupTranches : list ContractRecoupTranche) (trancheSizes : list Z)
    : CreateRecoupArgs :=
  {| arg_token := token config;
     arg_nonWaterfallRecipientAddress :=
       default AddressZero (nonWaterfallRecipientAddress config);
     arg_nonWaterfallRecipientTrancheIndex :=
       nonWaterfallRecipientTrancheIndex config;
     arg_recoupTranches := recoupTranches;
     arg_trancheSizes := trancheSizes |}.

(** The object a [TemplatesTransactions] constructor leaves behind. *)
Definition transactionsOf (ty : TransactionType.t) (config : SplitsClientConfig)
    : TemplatesTransactions :=
  {| _transactionType := ty;
     _chainId := chainId config;
     _provider := provider config;
     _ensProvider := ensProvider config;
     _signer := signer config;
     _includeEnsNames := default false (includeEnsNames config);
     _shouldRequireSigner := TransactionType.eqb ty TransactionType.Transaction;
     _recoupContract := _getRecoupContract ty (chainId config) |}.

(** The inherited constructor accepts the configuration in every mode. *)
Definition baseAccepts (config : SplitsClientConfig) : Prop :=
  forall ty, baseConfigCheck E ty (withDefaults config) = Returned ().

(** The first log of [ls] whose topic is among [topics]. *)
Definition firstMatch (topics : list string) (ls : list Event) : option Event :=
  head (filter (fun e => topic e ∈ topics) ls).

(** The object a [TemplatesClient] constructor leaves behind. *)
Definition clientObjectOf (config : SplitsClientConfig) : TemplatesClient :=
  {| client_super := transactionsOf TransactionType.Transaction config;
     eventTopics := {[ "createRecoup" := [getEventTopic E "CreateRecoup"] ]};
     callData :=
       {| callData_super := transactionsOf TransactionType.CallData config |};
     estimateGas :=
       {| gasEstimates_super := transactionsOf TransactionType.GasEstimate config |} |}.

(** [createRecoup] after the transaction was handed back: await it, take
    the first matching log, project its decoded arguments. *)
Definition afterSubmit (client : TemplatesClient) (t : ContractTransaction)
    (calls : list Call) : Completion CreateRecoupResult * list Call :=
  match wait t with
  | Thrown e => (Thrown e, calls ++ [CallWait t])
  | Returned receipt =>
      match firstMatch (eventTopics client !!! "createRecoup") (logs receipt) with
      | Some ev =>
          match args ev with
          | Some a =>
              (Returned {| waterfallModuleId := waterfallModule a; event := ev |},
               calls ++ [CallWait t])
          | None => (Thrown TransactionFailedError, calls ++ [CallWait t])
          end
      | None => (Thrown TransactionFailedError, calls ++ [CallWait t])
      end
  end.

End Templates.

(** ** A concrete set of collaborators, for running the client *)

Module Sample.

Definition provider1 : Provider := MkProvider "rpc".
Definition signer1 : Signer := MkSigner "wallet".

Definition recoupAddress : string := "0x00000000000000000000000000000000000000aa".
Definition tokenAddress : string := "0x00000000000000000000000000000000000000bb".
Definition recipientAddress : string := "0x00000000000000000000000000000000000000cc".
Definition moduleAddress : string := "0x00000000000000000000000000000000000000dd".

Definition createRecoupTopic : string := "topic:CreateRecoup".

Definition transferLog : Event :=
  {| blockNumber := 1111; topic := "topic:Transfer"; args := None |}.
Definition createRecoupLog : Event :=
  {| blockNumber := 1111; topic := createRecoupTopic;
     args := Some {| waterfallModule := moduleAddress |} |}.
Definition undecodedLog : Event :=
  {| blockNumber := 1111; topic := createRecoupTopic; args := None |}.

Definition minedWith (ls : list Event) : ContractTransaction :=
  {| hash := "0xhash"; wait := Returned {| logs := ls |} |}.

Definition sampleCallData : CallData :=
  {| address := recoupAddress; value := 0; data := "0xcafe" |}.

(** The configuration check the client test "Including ens names with no
    provider fails" exercises. *)
Definition ensCheck (config : SplitsClientConfig) : Completion unit :=
  if default false (includeEnsNames config)
     && negb (bool_decide (is_Some (provider config)))
     && negb (bool_decide (is_Some (ensProvider config)))
  then Thrown InvalidConfigError else Returned ().

(** Collaborators whose contract answers [respond kind]. *)
Definition collaborators (respond : TransactionType.t -> TransactionFormat)
    : @Collaborators nat Z :=
  {| TEMPLATES_CHAIN_IDS := [1; 5; 137]%Z;
     getRecoupAddress := fun _ => recoupAddress;
     getEventTopic := fun name => "topic:" +:+ name;
     checksumValid := fun _ => true;
     validateRecoupTranches := fun _ => Returned ();
     getRecoupTranchesAndSizes := fun _ _ ts _ =>
       Returned (Z.of_nat <$> ts, Z.of_nat <$> ts);
     baseConfigCheck := fun _ config => ensCheck config;
     recoupCreateRecoup := fun kind _ _ => Returned (respond kind) |}.

(** A contract that answers each mode with its own shape; the mined
    transaction carries the logs [ls]. *)
Definition wellBehaved (ls : list Event) (kind : TransactionType.t)
    : TransactionFormat :=
  match kind with
  | TransactionType.Transaction => TxContractTransaction (minedWith ls)
  | TransactionType.GasEstimate => TxBigNumber 21000
  | TransactionType.CallData => TxCallData sampleCallData
  end.

(** A contract that answers every mode with a gas quantity, and one that
    answers every mode with a mined transaction. *)
Definition alwaysGas (_ : TransactionType.t) : TransactionFormat := TxBigNumber 21000.
Definition alwaysTransaction (_ : TransactionType.t) : TransactionFormat :=
  TxContractTransaction (minedWith []).

Definition clientConfig (chain : Z) (p : option Provider) (s : option Signer)
    : SplitsClientConfig :=
  {| chainId := chain; provider := p; ensProvider := None; signer := s;
     includeEnsNames := None |}.

Definition recoupConfig (tok : string) (recipient : option string)
    (index : option Z) : @CreateRecoupConfig nat :=
  {| token := tok; tranches := [10; 20]%nat;
     nonWaterfallRecipientAddress := recipient;
     nonWaterfallRecipientTrancheIndex := index |}.

(** Run a computation from an empty call history. *)
Definition run {A} (c : @M nat Z A) : Completion A * list (@Call nat Z) := c [].

(** Named instances. *)
Definition plain : @Collaborators nat Z :=
  collaborators (wellBehaved [transferLog; createRecoupLog]).
Definition silent : @Collaborators nat Z :=
  collaborators (wellBehaved [transferLog]).
Definition undecoded : @Collaborators nat Z :=
  collaborators (wellBehaved [transferLog; undecodedLog; createRecoupLog]).
Definition gasOnly : @Collaborators nat Z := collaborators alwaysGas.
Definition transactionOnly : @Collaborators nat Z := collaborators alwaysTransaction.

Definition fullConfig : SplitsClientConfig :=
  clientConfig 1 (Some provider1) (Some signer1).
Definition noSignerConfig : SplitsClientConfig :=
  clientConfig 1 (Some provider1) None.
Definition noProviderConfig : SplitsClientConfig := clientConfig 1 None None.

Definition goodArgs : @CreateRecoupConfig nat := recoupConfig tokenAddress None None.
Definition illFormedArgs : @CreateRecoupConfig nat := recoupConfig "" None None.

(** The calls a successful transaction builder makes for [goodArgs]. *)
Definition builderCalls (kind : TransactionType.t) : list (@Call nat Z) :=
  [CallGetRecoupTranchesAndSizes 1 tokenAddress [10; 20]%nat provider1;
   CallCreateRecoup kind recoupAddress
     (createRecoupArgsOf goodArgs [10; 20]%Z [10; 20]%Z)].

End Sample.

(** ** Reading the call history *)

Section History.

Context {RecoupTrancheInput ContractRecoupTranche : Type}.

(** The transactions whose inclusion was awaited. *)
Fixpoint awaited (calls : list (@Call RecoupTrancheInput ContractRecoupTranche))
    : list ContractTransaction :=
  match calls with
  | [] => []
  | CallWait t :: rest => t :: awaited rest
  | _ :: rest => awaited rest
  end.

End History.

Module SampleConfigs.

(** ENS names requested without any provider, on an unsupported chain. *)
Definition ensNoProvider : SplitsClientConfig :=
  {| chainId := 51; provider := None; ensProvider := None; signer := None;
     includeEnsNames := Some true |}.

(** Collaborators whose formatter fails. *)
Definition formatterDown : @Collaborators nat Z :=
  {| TEMPLATES_CHAIN_IDS := [1; 5; 137]%Z;
     getRecoupAddress := fun _ => Sample.recoupAddress;
     getEventTopic := fun name => "topic:" +:+ name;
     checksumValid := fun _ => true;
     validateRecoupTranches := fun _ => Returned ();
     getRecoupTranchesAndSizes := fun _ _ _ _ => Thrown (Error "network down");
     baseConfigCheck := fun _ config => Sample.ensCheck config;
     recoupCreateRecoup := fun kind _ _ => Returned (Sample.wellBehaved [] kind) |}.

(** Collaborators whose contract rejects every call. *)
Definition contractDown : @Collaborators nat Z :=
  {| TEMPLATES_CHAIN_IDS := [1; 5; 137]%Z;
     getRecoupAddress := fun _ => Sample.recoupAddress;
     getEventTopic := fun name => "topic:" +:+ name;
     checksumValid := fun _ => true;
     validateRecoupTranches := fun _ => Returned ();
     getRecoupTranchesAndSizes := fun _ _ ts _ =>
       Returned (Z.of_nat <$> ts, Z.of_nat <$> ts);
     baseConfigCheck := fun _ config => Sample.ensCheck config;
     recoupCreateRecoup := fun _ _ _ => Thrown (Error "execution reverted") |}.

(** A transaction whose inclusion fails. *)
Definition droppedTransaction : ContractTransaction :=
  {| hash := "0xdropped"; wait := Thrown (Error "transaction failed") |}.

Definition dropping : @Collaborators nat Z :=
  Sample.collaborators (fun _ => TxContractTransaction droppedTransaction).

End SampleConfigs.

(** ** The create-split form

    The values [CreateSplitForm] computes on each render and its submit
    handler. Numbers are JavaScript numbers taken up to SameValueZero, with
    their addition, their literals and their conversion to a string left
    abstract; comparing with the literal [100] by [===] is then equality. *)

Section CreateSplitForm.

Context {number : Type} `{EqDecision number}.
Context {Recipient : Type}.

(** [a + b], a numeric literal, and [String(value)]. *)
Variable plus : number -> number -> number.
Variable numeral : Z -> number.
Variable toString : number -> string.

(** [recipient.percentAllocation], and [CHAIN_INFO[chainId].label]. *)
Variable percentAllocation : Recipient -> number.
Variable chainLabel : Z -> string.

(** lodash's [sum]: [0] for an empty array, else the elements added from
    left to right starting with the first. *)
Definition lodash_sum (l : list number) : number :=
  match l with
  | [] => numeral 0
  | x :: rest => foldl plus x rest
  end.

(** lodash's [uniq]: the first occurrence of each value, in order. *)
Definition lodash_uniq (l : list number) : list number :=
  foldl (fun seen x => if decide (x ∈ seen) then seen else seen ++ [x]) [] l.

(** [Array.prototype.sort] without a comparator: ascending by the string
    each element converts to, equal strings keeping their order. *)
Fixpoint insertByString (x : number) (l : list number) : list number :=
  match l with
  | [] => [x]
  | y :: rest =>
      if String.ltb (toString y) (toString x) then y :: insertByString x rest
      else x :: y :: rest
  end.

Definition Array_sort (l : list number) : list number :=
  foldr insertByString [] l.

(** [a] does not come after [b] in the order of their strings. *)
Definition stringOrdered (a b : number) : Prop :=
  String.ltb (toString b) (toString a) = false.

(** The chain the wallet is on, as [useNetwork] reports it. *)
Record Chain : Type := { chain_id : Z }.

Definition recipientAllocationTotal (recipients : list Recipient) : number :=
  lodash_sum (percentAllocation <$> recipients).

Definition isFullyAllocated (recipients : list Recipient) : bool :=
  bool_decide (recipientAllocationTotal recipients = numeral 100).

(** [chain && chainId !== chain.id]: undefined when there is no chain. *)
Definition isWrongChain (chainId : Z) (chain : option Chain) : option bool :=
  match chain with
  | None => None
  | Some c => Some (negb (chainId =? chain_id c)%Z)
  end.

(** Truthiness of a value that is a boolean or undefined. *)
Definition truthy (v : option bool) : bool := default false v.

Definition isButtonDisabled (chainId : Z) (isConnected : bool)
    (chain : option Chain) (isFormValid : bool) (recipients : list Recipient)
    : bool :=
  negb isConnected || truthy (isWrongChain chainId chain) || negb isFormValid
  || negb (isFullyAllocated recipients).

(** The tooltip around the submit button: its [isDisabled] and [content]. *)
Definition tooltipIsDisabled (chainId : Z) (isConnected : bool)
    (chain : option Chain) : bool :=
  isConnected && negb (truthy (isWrongChain chainId chain)).

Definition tooltipContent (chainId : Z) (isConnected : bool)
    (chain : option Chain) : string :=
  if truthy (isWrongChain chainId chain) then
    "Switch to " +:+ chainLabel chainId +:+ " to distribute funds"
  else if negb isConnected then "Connect wallect"
  else "".

(** An entry of the distributor-fee selector. *)
Record FeeOption : Type := {
  option_value : number;
  option_display : string;
}.

Definition manualOption : FeeOption :=
  {| option_value := numeral 0; option_display := "Manually distribute (0%)" |}.

Definition distributorFeeOptions (defaultDistributorFeeOptions : list number)
    (defaultDistributorFee : number) : list FeeOption :=
  ((fun v => {| option_value := v; option_display := toString v +:+ "%" |})
     <$> Array_sort (lodash_uniq (defaultDistributorFeeOptions ++ [defaultDistributorFee])))
  ++ [manualOption].

(** *** Submitting *)

Record CreateSplitFormData : Type := {
  recipients : list Recipient;
  controller : string;
  distributorFee : number;
}.

Record CreateSplitConfig : Type := {
  config_recipients : list Recipient;
  distributorFeePercent : number;
  config_controller : string;
}.

(** An event as the submit handler reads it: its decoded arguments by
    name, when it was decoded. *)
Record SplitEvent : Type := {
  event_blockNumber : Z;
  event_args : option (gmap string string);
}.

(** [createSplit] of the [useCreateSplit] hook: the events of the
    transaction, or undefined. *)
Variable createSplit : CreateSplitConfig -> Completion (option (list SplitEvent)).

(** [onSubmit]: the calls made to [onSuccess], each with its split id and
    event; [onSuccess] tells whether the callback was given. *)
Definition onSubmit (onSuccess : bool) (data : CreateSplitFormData)
    : Completion (list (option string * option SplitEvent)) :=
  let args := {| config_recipients := recipients data;
                 distributorFeePercent := distributorFee data;
                 config_controller := controller data |} in
  result ← createSplit args;
  match result with
  | Some events =>
      let event : option SplitEvent := head events in
      let splitId : option string :=
        args ← event ≫= event_args; (args : gmap string string) !! "split" in
      if onSuccess then Returned [(splitId, event)] else Returned []
  | None => Returned []
  end.

End CreateSplitForm.

Module FormSample.

(** Whole numbers standing for JavaScript numbers. *)
Definition feeOptions : list FeeOption :=
  distributorFeeOptions Z.to_nat (pretty : nat -> string) [10; 1; 2; 10]%nat 1%nat.

Definition zeroFeeOptions : list FeeOption :=
  distributorFeeOptions Z.to_nat (pretty : nat -> string) [5; 0]%nat 5%nat.

Definition decodedEvent : SplitEvent :=
  {| event_blockNumber := 7;
     event_args := Some {[ "split" := "0xsplit" ]} |}.
Definition otherEvent : SplitEvent :=
  {| event_blockNumber := 7;
     event_args := Some {[ "swapper" := "0xswapper" ]} |}.

Definition formData : @CreateSplitFormData nat nat :=
  {| recipients := [60; 40]%nat; controller := AddressZero; distributorFee := 1%nat |}.

End FormSample.

(** ** Properties *)

Section Properties.

Context {RecoupTrancheInput ContractRecoupTranche : Type}.
Variable E : @Collaborators RecoupTrancheInput ContractRecoupTranche.

Implicit Types (this : TemplatesTransactions).
Implicit Types (config : @CreateRecoupConfig RecoupTrancheInput).
Implicit Types (calls : list (@Call RecoupTrancheInput ContractRecoupTranche)).

Ltac unfold_monad :=
  unfold mbind, mret, M_bind, M_ret, Completion_bind, Completion_ret,
    lift, throw, perform in *.

Lemma validateCreateRecoup_explicit config :
  validateCreateRecoup E (explicitConfig config) = validateCreateRecoup E config.
Proof. reflexivity. Qed.

Lemma createRecoupArgsOf_explicit config
    (rt : list ContractRecoupTranche) (ts : list Z) :
  createRecoupArgsOf (explicitConfig config) rt ts = createRecoupArgsOf config rt ts.
Proof. reflexivity. Qed.

(** Validation comes first: its failure is the failure of the call, with
    no collaborator called. *)
Lemma createRecoupTransaction_invalid this config calls e :
  validateCreateRecoup E config = Thrown e ->
  _createRecoupTransaction E this config calls = (Thrown e, calls).
Proof.
  unfold validateCreateRecoup, _createRecoupTransaction. unfold_monad.
  intros H.
  destruct (validateAddress E (token config)) as [[]|]; [|congruence].
  destruct (validateAddress E _) as [[]|]; [|congruence].
  destruct (validateRecoupTranches E _) as [[]|]; [|congruence].
  rewrite H. reflexivity.
Qed.

(** Once validation has passed, the rest of the call. *)
Lemma createRecoupTransaction_valid this config calls :
  validateCreateRecoup E config = Returned () ->
  _createRecoupTransaction E this config calls =
    match _provider this with
    | None => (Thrown MissingProviderError, calls)
    | Some p =>
        if _shouldRequireSigner this && negb (bool_decide (is_Some (_signer this)))
        then (Thrown MissingSignerError, calls)
        else
          let c1 := CallGetRecoupTranchesAndSizes (_chainId this) (token config)
                      (tranches config) p in
          match getRecoupTranchesAndSizes E (_chainId this) (token config)
                  (tranches config) p with
          | Thrown e => (Thrown e, calls ++ [c1])
          | Returned (rt, ts) =>
              let a := createRecoupArgsOf config rt ts in
              let k := contractKind (_recoupContract this) in
              let t := contractAddress (_recoupContract this) in
              (recoupCreateRecoup E k t a,
               calls ++ [c1; CallCreateRecoup k t a])
          end
    end.
Proof.
  unfold validateCreateRecoup, _createRecoupTransaction, _requireProvider,
    _requireSigner, contract_createRecoup, createRecoupArgsOf.
  unfold_monad. intros H.
  destruct (validateAddress E (token config)) as [[]|]; [|congruence].
  destruct (validateAddress E _) as [[]|]; [|congruence].
  destruct (validateRecoupTranches E _) as [[]|]; [|congruence].
  rewrite H.
  destruct (_provider this) as [p|]; [|reflexivity].
  destruct (_shouldRequireSigner this), (_signer this) as [s|]; simpl;
    try reflexivity;
    destruct (getRecoupTranchesAndSizes E _ _ _ p) as [[rt ts]|e]; simpl;
    try reflexivity;
    rewrite <- app_assoc; simpl;
    destruct (recoupCreateRecoup E _ _ _); reflexivity.
Qed.

(** *** Constructors *)

Lemma TemplatesTransactions_new_eq ty (cfg : SplitsClientConfig) calls :
  TemplatesTransactions_new E ty (withDefaults cfg) calls =
    match baseConfigCheck E ty (withDefaults cfg) with
    | Returned _ => (Returned (transactionsOf E ty cfg), calls)
    | Thrown e => (Thrown e, calls)
    end.
Proof.
  unfold TemplatesTransactions_new. unfold_monad.
  change (withDefaults (withDefaults cfg)) with (withDefaults cfg).
  destruct (baseConfigCheck E ty (withDefaults cfg)); reflexivity.
Qed.

Lemma TemplatesClient_new_eq (cfg : SplitsClientConfig) calls :
  baseAccepts E cfg ->
  TemplatesClient_new E cfg calls =
    if bool_decide (chainId cfg ∈ TEMPLATES_CHAIN_IDS E)
    then (Returned (clientObjectOf E cfg), calls)
    else (Thrown (UnsupportedChainIdError (chainId cfg) (TEMPLATES_CHAIN_IDS E)),
          calls).
Proof.
  intros Hbase. unfold TemplatesClient_new, TemplatesCallData_new,
    TemplatesGasEstimates_new.
  change (withDefaults (withDefaults cfg)) with (withDefaults cfg).
  unfold mbind at 1. unfold M_bind at 1.
  rewrite TemplatesTransactions_new_eq, Hbase.
  destruct (bool_decide (chainId cfg ∈ TEMPLATES_CHAIN_IDS E)); simpl;
    [|reflexivity].
  unfold mbind, M_bind, mret, M_ret.
  rewrite TemplatesTransactions_new_eq, Hbase.
  rewrite TemplatesTransactions_new_eq, Hbase. reflexivity.
Qed.

Lemma TemplatesClient_new_returned (cfg : SplitsClientConfig) calls client calls' :
  baseAccepts E cfg ->
  TemplatesClient_new E cfg calls = (Returned client, calls') ->
  client = clientObjectOf E cfg /\ calls' = calls
  /\ chainId cfg ∈ TEMPLATES_CHAIN_IDS E.
Proof.
  intros Hbase. rewrite TemplatesClient_new_eq by assumption.
  case_bool_decide; intros [= <- <-]; auto.
Qed.

(** *** The three facades, in terms of the shared transaction builder *)

Lemma submitCreateRecoupTransaction_eq (client : TemplatesClient) config calls :
  submitCreateRecoupTransaction E client config calls =
    match _createRecoupTransaction E (client_super client) (explicitConfig config)
            calls with
    | (Returned (TxContractTransaction t), calls') => (Returned {| tx := t |}, calls')
    | (Returned _, calls') => (Thrown (Error "Invalid response"), calls')
    | (Thrown e, calls') => (Thrown e, calls')
    end.
Proof.
  unfold submitCreateRecoupTransaction. unfold mbind at 1. unfold M_bind at 1.
  destruct (_createRecoupTransaction E _ _ calls) as [[[]|] calls']; reflexivity.
Qed.

Lemma TemplatesGasEstimates_createRecoup_eq (g : TemplatesGasEstimates) config calls :
  TemplatesGasEstimates_createRecoup E g config calls =
    match _createRecoupTransaction E (gasEstimates_super g) (explicitConfig config)
            calls with
    | (Returned (TxBigNumber n), calls') => (Returned n, calls')
    | (Returned _, calls') => (Thrown (Error "Invalid response"), calls')
    | (Thrown e, calls') => (Thrown e, calls')
    end.
Proof.
  unfold TemplatesGasEstimates_createRecoup. unfold mbind at 1. unfold M_bind at 1.
  destruct (_createRecoupTransaction E _ _ calls) as [[[]|] calls']; reflexivity.
Qed.

Lemma TemplatesCallData_createRecoup_eq (d : TemplatesCallData) config calls :
  TemplatesCallData_createRecoup E d config calls =
    match _createRecoupTransaction E (callData_super d) (explicitConfig config)
            calls with
    | (Returned (TxCallData c), calls') => (Returned c, calls')
    | (Returned _, calls') => (Thrown (Error "Invalid response"), calls')
    | (Thrown e, calls') => (Thrown e, calls')
    end.
Proof.
  unfold TemplatesCallData_createRecoup. unfold mbind at 1. unfold M_bind at 1.
  destruct (_createRecoupTransaction E _ _ calls) as [[[]|] calls']; reflexivity.
Qed.

Lemma first_event_head (events : list Event) :
  (if (0 <? length events)%nat then events !! 0%nat else None) = head events.
Proof. destruct events; reflexivity. Qed.

Lemma TemplatesClient_createRecoup_eq (client : TemplatesClient) config calls :
  TemplatesClient_createRecoup E client config calls =
    match submitCreateRecoupTransaction E client config calls with
    | (Returned r, calls') => afterSubmit client (tx r) calls'
    | (Thrown e, calls') => (Thrown e, calls')
    end.
Proof.
  unfold TemplatesClient_createRecoup. unfold mbind at 1. unfold M_bind at 1.
  change (submitCreateRecoupTransaction E client (explicitConfig config) calls)
    with (submitCreateRecoupTransaction E client config calls).
  destruct (submitCreateRecoupTransaction E client config calls)
    as [[r|e] calls']; [|reflexivity].
  unfold getTransactionEvents, afterSubmit, firstMatch. unfold_monad.
  destruct (wait (tx r)) as [receipt|e]; [|reflexivity].
  rewrite first_event_head.
  destruct (head _) as [ev|]; [|reflexivity].
  destruct (args ev); reflexivity.
Qed.

(** *** Chain support *)

(** C2. Once the inherited constructor has accepted the configuration:
    for a chain id outside [TEMPLATES_CHAIN_IDS], constructing the client
    throws [UnsupportedChainIdError] carrying the chain id and the
    supported set, with no collaborator called, and so does the whole
    construct-then-create scenario; for a chain id in the set,
    construction returns a client. *)
Theorem TemplatesClient_chain_gate (cfg : SplitsClientConfig) calls :
  baseAccepts E cfg ->
  (chainId cfg ∉ TEMPLATES_CHAIN_IDS E ->
     TemplatesClient_new E cfg calls =
       (Thrown (UnsupportedChainIdError (chainId cfg) (TEMPLATES_CHAIN_IDS E)), calls)
     /\ forall config,
          createRecoupScenario E cfg config calls =
            (Thrown (UnsupportedChainIdError (chainId cfg) (TEMPLATES_CHAIN_IDS E)),
             calls))
  /\ (chainId cfg ∈ TEMPLATES_CHAIN_IDS E ->
        exists client, TemplatesClient_new E cfg calls = (Returned client, calls)).
Proof.
  intros Hbase. split.
  - intros Hnot.
    assert (Hnew : TemplatesClient_new E cfg calls =
      (Thrown (UnsupportedChainIdError (chainId cfg) (TEMPLATES_CHAIN_IDS E)), calls)).
    { rewrite TemplatesClient_new_eq by assumption.
      rewrite bool_decide_eq_false_2 by assumption. reflexivity. }
    split; [exact Hnew|].
    intros config. unfold createRecoupScenario, mbind, M_bind.
    rewrite Hnew. reflexivity.
  - intros Hin. exists (clientObjectOf E cfg).
    rewrite TemplatesClient_new_eq by assumption.
    rewrite bool_decide_eq_true_2 by assumption. reflexivity.
Qed.

(** *** Provider and signer *)

(** C1, as the code has it. On a client with no provider, each of the
    three [createRecoup] variants throws [MissingProviderError] when the
    arguments pass validation; validation runs first, so when it fails its
    error is the one thrown. In both cases no collaborator is called. *)
Theorem missing_provider_after_validation (client : TemplatesClient) config calls :
  _provider (client_super client) = None ->
  _provider (gasEstimates_super (estimateGas client)) = None ->
  _provider (callData_super (callData client)) = None ->
  (validateCreateRecoup E config = Returned () ->
     TemplatesClient_createRecoup E client config calls
       = (Thrown MissingProviderError, calls)
     /\ TemplatesGasEstimates_createRecoup E (estimateGas client) config calls
       = (Thrown MissingProviderError, calls)
     /\ TemplatesCallData_createRecoup E (callData client) config calls
       = (Thrown MissingProviderError, calls))
  /\ (forall e, validateCreateRecoup E config = Thrown e ->
     TemplatesClient_createRecoup E client config calls = (Thrown e, calls)
     /\ TemplatesGasEstimates_createRecoup E (estimateGas client) config calls
       = (Thrown e, calls)
     /\ TemplatesCallData_createRecoup E (callData client) config calls
       = (Thrown e, calls)).
Proof.
  intros H1 H2 H3. split.
  - intros Hv. rewrite <- validateCreateRecoup_explicit in Hv.
    rewrite TemplatesClient_createRecoup_eq, submitCreateRecoupTransaction_eq,
      TemplatesGasEstimates_createRecoup_eq, TemplatesCallData_createRecoup_eq.
    rewrite !createRecoupTransaction_valid by assumption.
    rewrite H1, H2, H3. auto.
  - intros e Hv. rewrite <- validateCreateRecoup_explicit in Hv.
    rewrite TemplatesClient_createRecoup_eq, submitCreateRecoupTransaction_eq,
      TemplatesGasEstimates_createRecoup_eq, TemplatesCallData_createRecoup_eq.
    rewrite !(createRecoupTransaction_invalid _ _ _ e) by assumption. auto.
Qed.

(** C4. A signer is required exactly by the Execute-mode object. With
    valid arguments and no signer, the Execute-mode [createRecoup] throws
    [MissingProviderError] when the provider is missing too and
    [MissingSignerError] when a provider is configured; the gas-estimate
    and call-data variants go on to the contract and return its answer. *)
Theorem signer_required_only_to_execute (cfg : SplitsClientConfig)
    (client : TemplatesClient) config calls0 calls :
  baseAccepts E cfg ->
  TemplatesClient_new E cfg calls0 = (Returned client, calls0) ->
  signer cfg = None ->
  validateCreateRecoup E config = Returned () ->
  (_shouldRequireSigner (client_super client) = true
   /\ _shouldRequireSigner (gasEstimates_super (estimateGas client)) = false
   /\ _shouldRequireSigner (callData_super (callData client)) = false)
  /\ (provider cfg = None ->
        TemplatesClient_createRecoup E client config calls
          = (Thrown MissingProviderError, calls))
  /\ (forall p, provider cfg = Some p ->
        TemplatesClient_createRecoup E client config calls
          = (Thrown MissingSignerError, calls)
        /\ forall rt ts,
             getRecoupTranchesAndSizes E (chainId cfg) (token config)
               (tranches config) p = Returned (rt, ts) ->
             let a := createRecoupArgsOf config rt ts in
             let target := getRecoupAddress E (chainId cfg) in
             let c1 := CallGetRecoupTranchesAndSizes (chainId cfg) (token config)
                         (tranches config) p in
             (forall n,
                recoupCreateRecoup E TransactionType.GasEstimate target a
                  = Returned (TxBigNumber n) ->
                TemplatesGasEstimates_createRecoup E (estimateGas client) config calls
                  = (Returned n,
                     calls ++ [c1; CallCreateRecoup TransactionType.GasEstimate target a]))
             /\ (forall c,
                recoupCreateRecoup E TransactionType.CallData target a
                  = Returned (TxCallData c) ->
                TemplatesCallData_createRecoup E (callData client) config calls
                  = (Returned c,
                     calls ++ [c1; CallCreateRecoup TransactionType.CallData target a]))).
Proof.
  intros Hbase Hnew Hsigner Hv.
  apply TemplatesClient_new_returned in Hnew as (-> & _ & _); [|assumption].
  rewrite <- validateCreateRecoup_explicit in Hv.
  split; [repeat split|split].
  - intros Hp.
    rewrite TemplatesClient_createRecoup_eq, submitCreateRecoupTransaction_eq.
    rewrite createRecoupTransaction_valid by assumption.
    simpl. rewrite Hp. reflexivity.
  - intros p Hp. split.
    + rewrite TemplatesClient_createRecoup_eq, submitCreateRecoupTransaction_eq.
      rewrite createRecoupTransaction_valid by assumption.
      simpl. rewrite Hp, Hsigner. reflexivity.
    + intros rt ts Hfmt a target c1. split.
      * intros n Hn. rewrite TemplatesGasEstimates_createRecoup_eq.
        rewrite createRecoupTransaction_valid by assumption.
        simpl. rewrite Hp, Hfmt. simpl.
        rewrite createRecoupArgsOf_explicit. fold a target. rewrite Hn. reflexivity.
      * intros c Hc. rewrite TemplatesCallData_createRecoup_eq.
        rewrite createRecoupTransaction_valid by assumption.
        simpl. rewrite Hp, Hfmt. simpl.
        rewrite createRecoupArgsOf_explicit. fold a target. rewrite Hc. reflexivity.
Qed.

(** *** One argument tuple for the three modes *)

Lemma createRecoupCalls_app calls1 calls2 :
  createRecoupCalls (calls1 ++ calls2)
    = createRecoupCalls calls1 ++ createRecoupCalls calls2.
Proof.
  induction calls1 as [|c calls1 IH]; [reflexivity|].
  destruct c; simpl; rewrite IH; reflexivity.
Qed.

(** The contract calls made by [afterSubmit] are those made before it. *)
Lemma afterSubmit_calls (client : TemplatesClient) t calls :
  createRecoupCalls (afterSubmit client t calls).2 = createRecoupCalls calls.
Proof.
  unfold afterSubmit.
  destruct (wait t) as [receipt|e]; [destruct (firstMatch _ _) as [ev|];
    [destruct (args ev)|]|]; simpl;
    rewrite createRecoupCalls_app; simpl; apply app_nil_r.
Qed.

(** C5. For arguments accepted by validation, on a client with provider
    and signer, the Execute, gas-estimate and call-data variants of
    [createRecoup] each make exactly one contract call, and the three
    calls carry the same tuple: the validated token, recipient and tranche
    index with the formatted tranches and sizes. *)
Theorem same_arguments_in_every_mode (cfg : SplitsClientConfig)
    (client : TemplatesClient) config calls0 p s rt ts :
  baseAccepts E cfg ->
  TemplatesClient_new E cfg calls0 = (Returned client, calls0) ->
  provider cfg = Some p ->
  signer cfg = Some s ->
  validateCreateRecoup E config = Returned () ->
  getRecoupTranchesAndSizes E (chainId cfg) (token config) (tranches config) p
    = Returned (rt, ts) ->
  let a := createRecoupArgsOf config rt ts in
  createRecoupCalls (TemplatesClient_createRecoup E client config []).2 = [a]
  /\ createRecoupCalls
       (TemplatesGasEstimates_createRecoup E (estimateGas client) config []).2 = [a]
  /\ createRecoupCalls
       (TemplatesCallData_createRecoup E (callData client) config []).2 = [a].
Proof.
  intros Hbase Hnew Hp Hs Hv Hfmt a.
  apply TemplatesClient_new_returned in Hnew as (-> & _ & _); [|assumption].
  rewrite <- validateCreateRecoup_explicit in Hv.
  rewrite TemplatesClient_createRecoup_eq, submitCreateRecoupTransaction_eq,
    TemplatesGasEstimates_createRecoup_eq, TemplatesCallData_createRecoup_eq.
  rewrite !createRecoupTransaction_valid by assumption.
  simpl. rewrite Hp, Hs, Hfmt. simpl.
  rewrite createRecoupArgsOf_explicit. fold a.
  repeat split.
  - destruct (recoupCreateRecoup E TransactionType.Transaction _ a) as [[]|];
      try reflexivity.
    rewrite afterSubmit_calls. reflexivity.
  - destruct (recoupCreateRecoup E TransactionType.GasEstimate _ a) as [[]|];
      reflexivity.
  - destruct (recoupCreateRecoup E TransactionType.CallData _ a) as [[]|];
      reflexivity.
Qed.

(** *** Response guards and result shapes *)

(** C9. When the shared transaction builder hands back a value that is
    not of the shape of the variant's mode, the variant throws the
    "Invalid response" error instead of returning that value: in Execute
    mode (for [submitCreateRecoupTransaction] and [createRecoup]), in
    gas-estimate mode and in call-data mode. *)
Theorem invalid_response_guard (client : TemplatesClient) config calls r calls' :
  (_createRecoupTransaction E (client_super client) (explicitConfig config) calls
     = (Returned r, calls') ->
   _isContractTransaction r = false ->
   submitCreateRecoupTransaction E client config calls
     = (Thrown (Error "Invalid response"), calls')
   /\ TemplatesClient_createRecoup E client config calls
     = (Thrown (Error "Invalid response"), calls'))
  /\ (_createRecoupTransaction E (gasEstimates_super (estimateGas client))
        (explicitConfig config) calls = (Returned r, calls') ->
      _isBigNumber r = false ->
      TemplatesGasEstimates_createRecoup E (estimateGas client) config calls
        = (Thrown (Error "Invalid response"), calls'))
  /\ (_createRecoupTransaction E (callData_super (callData client))
        (explicitConfig config) calls = (Returned r, calls') ->
      _isCallData r = false ->
      TemplatesCallData_createRecoup E (callData client) config calls
        = (Thrown (Error "Invalid response"), calls')).
Proof.
  split; [|split].
  - intros Hr Hshape.
    rewrite TemplatesClient_createRecoup_eq, !submitCreateRecoupTransaction_eq, Hr.
    destruct r; [discriminate|split; reflexivity|split; reflexivity].
  - intros Hr Hshape. rewrite TemplatesGasEstimates_createRecoup_eq, Hr.
    destruct r; [reflexivity|discriminate|reflexivity].
  - intros Hr Hshape. rewrite TemplatesCallData_createRecoup_eq, Hr.
    destruct r; [reflexivity|reflexivity|discriminate].
Qed.

(** What a returning Execute-mode [createRecoup] went through. *)
Lemma createRecoup_returned (client : TemplatesClient) config calls res calls' :
  TemplatesClient_createRecoup E client config calls = (Returned res, calls') ->
  exists t calls1 receipt a,
    _createRecoupTransaction E (client_super client) (explicitConfig config) calls
      = (Returned (TxContractTransaction t), calls1)
    /\ calls' = calls1 ++ [CallWait t]
    /\ wait t = Returned receipt
    /\ firstMatch (eventTopics client !!! "createRecoup") (logs receipt)
         = Some (event res)
    /\ args (event res) = Some a
    /\ waterfallModuleId res = waterfallModule a.
Proof.
  rewrite TemplatesClient_createRecoup_eq, submitCreateRecoupTransaction_eq.
  destruct (_createRecoupTransaction E _ _ calls) as [[[t| |]|] calls1];
    try discriminate.
  unfold afterSubmit. simpl.
  destruct (wait t) as [receipt|] eqn:Hwait; [|discriminate].
  destruct (firstMatch _ _) as [ev|] eqn:Hfirst; [|discriminate].
  destruct (args ev) as [a|] eqn:Hargs; [|discriminate].
  intros [= <- <-]. exists t, calls1, receipt, a. simpl. repeat split; assumption.
Qed.

(** *** Event extraction *)

Lemma firstMatch_none (topics : list string) (ls : list Event) :
  Forall (fun e => topic e ∉ topics) ls -> firstMatch topics ls = None.
Proof.
  unfold firstMatch. induction 1 as [|e ls Hne _ IH]; [reflexivity|].
  rewrite filter_cons_False by assumption. exact IH.
Qed.

Lemma filter_skip_prefix (topics : list string) (pre : list Event) ev post :
  Forall (fun e => topic e ∉ topics) pre ->
  topic ev ∈ topics ->
  filter (fun e => topic e ∈ topics) (pre ++ ev :: post)
    = ev :: filter (fun e => topic e ∈ topics) post.
Proof.
  intros Hpre Hev. induction Hpre as [|e pre Hne _ IH]; simpl.
  - rewrite filter_cons_True by assumption. reflexivity.
  - rewrite filter_cons_False by assumption. exact IH.
Qed.

Lemma firstMatch_at (topics : list string) (pre : list Event) ev post :
  Forall (fun e => topic e ∉ topics) pre ->
  topic ev ∈ topics ->
  firstMatch topics (pre ++ ev :: post) = Some ev.
Proof.
  intros Hpre Hev. unfold firstMatch.
  rewrite filter_skip_prefix by assumption. reflexivity.
Qed.

(** C3. In Execute mode, when the submitted transaction is mined and none
    of its logs carries one of the expected topics, [createRecoup] throws
    [TransactionFailedError]; nothing is returned. *)
Theorem createRecoup_no_matching_event (client : TemplatesClient) config calls
    t calls' receipt :
  submitCreateRecoupTransaction E client config calls
    = (Returned {| tx := t |}, calls') ->
  wait t = Returned receipt ->
  Forall (fun e => topic e ∉ eventTopics client !!! "createRecoup") (logs receipt) ->
  TemplatesClient_createRecoup E client config calls
    = (Thrown TransactionFailedError, calls' ++ [CallWait t]).
Proof.
  intros Hsubmit Hwait Hnone.
  rewrite TemplatesClient_createRecoup_eq, Hsubmit.
  unfold afterSubmit. simpl. rewrite Hwait.
  rewrite firstMatch_none by assumption. reflexivity.
Qed.

(** C7. When the mined transaction has a log with an expected topic, the
    extraction returns the matching logs in order, so the log at the
    lowest matching index comes first whatever precedes it; when that log
    is decoded, [createRecoup] returns it together with its
    [waterfallModule] argument as the module identifier. *)
Theorem createRecoup_first_matching_event (client : TemplatesClient) config calls
    t calls' receipt pre ev post a :
  let topics := eventTopics client !!! "createRecoup" in
  submitCreateRecoupTransaction E client config calls
    = (Returned {| tx := t |}, calls') ->
  wait t = Returned receipt ->
  logs receipt = pre ++ ev :: post ->
  Forall (fun e => topic e ∉ topics) pre ->
  topic ev ∈ topics ->
  args ev = Some a ->
  getTransactionEvents t topics calls'
    = (Returned (ev :: filter (fun e => topic e ∈ topics) post),
       calls' ++ [CallWait t])
  /\ TemplatesClient_createRecoup E client config calls
    = (Returned {| waterfallModuleId := waterfallModule a; event := ev |},
       calls' ++ [CallWait t]).
Proof.
  intros topics Hsubmit Hwait Hlogs Hpre Hev Hargs. split.
  - unfold getTransactionEvents. unfold_monad. rewrite Hwait, Hlogs.
    rewrite filter_skip_prefix by assumption. reflexivity.
  - rewrite TemplatesClient_createRecoup_eq, Hsubmit.
    unfold afterSubmit. simpl. rewrite Hwait, Hlogs.
    fold topics. rewrite firstMatch_at by assumption.
    rewrite Hargs. reflexivity.
Qed.

(** C10. When the first log with an expected topic carries no decoded
    arguments, the Execute-mode [createRecoup] throws
    [TransactionFailedError], as it does when no log matches; and whenever
    it returns, the returned event has decoded arguments and the module
    identifier is their [waterfallModule]. *)
Theorem createRecoup_undecoded_event (client : TemplatesClient) config calls :
  let topics := eventTopics client !!! "createRecoup" in
  (forall t calls' receipt pre ev post,
     submitCreateRecoupTransaction E client config calls
       = (Returned {| tx := t |}, calls') ->
     wait t = Returned receipt ->
     logs receipt = pre ++ ev :: post ->
     Forall (fun e => topic e ∉ topics) pre ->
     topic ev ∈ topics ->
     args ev = None ->
     TemplatesClient_createRecoup E client config calls
       = (Thrown TransactionFailedError, calls' ++ [CallWait t]))
  /\ (forall res calls',
     TemplatesClient_createRecoup E client config calls = (Returned res, calls') ->
     exists a, args (event res) = Some a
               /\ waterfallModuleId res = waterfallModule a).
Proof.
  intros topics. split.
  - intros t calls' receipt pre ev post Hsubmit Hwait Hlogs Hpre Hev Hargs.
    rewrite TemplatesClient_createRecoup_eq, Hsubmit.
    unfold afterSubmit. simpl. rewrite Hwait, Hlogs.
    fold topics. rewrite firstMatch_at by assumption.
    rewrite Hargs. reflexivity.
  - intros res calls' Hres.
    apply createRecoup_returned in Hres
      as (_ & _ & _ & a & _ & _ & _ & _ & Ha & Hid).
    exists a. auto.
Qed.

(** *** The non-waterfall recipient *)

(** C8. For every recipient address and tranche index: with the zero
    address, any defined index fails validation; with a non-zero address,
    an undefined index fails validation; both failures are
    [InvalidArgumentError]s and are what [_createRecoupTransaction] throws
    once the earlier validators have passed. The zero address without an
    index, and a non-zero address with an index of an existing tranche,
    pass. *)
Theorem nonWaterfallRecipient_pairing (numTranches : nat) (recipient : string)
    (index : option Z) :
  (recipient = AddressZero -> index <> None ->
     exists msg, validateRecoupNonWaterfallRecipient numTranches recipient index
                   = Thrown (InvalidArgumentError msg))
  /\ (recipient <> AddressZero -> index = None ->
     exists msg, validateRecoupNonWaterfallRecipient numTranches recipient index
                   = Thrown (InvalidArgumentError msg))
  /\ (recipient = AddressZero -> index = None ->
     validateRecoupNonWaterfallRecipient numTranches recipient index = Returned ())
  /\ (forall i, recipient <> AddressZero -> index = Some i ->
     (0 <= i < Z.of_nat numTranches)%Z ->
     validateRecoupNonWaterfallRecipient numTranches recipient index = Returned ())
  /\ (forall this config calls e,
     validateAddress E (token config) = Returned () ->
     validateAddress E recipient = Returned () ->
     validateRecoupTranches E (tranches config) = Returned () ->
     nonWaterfallRecipientAddress config = Some recipient ->
     nonWaterfallRecipientTrancheIndex config = index ->
     numTranches = length (tranches config) ->
     validateRecoupNonWaterfallRecipient numTranches recipient index = Thrown e ->
     _createRecoupTransaction E this config calls = (Thrown e, calls)).
Proof.
  unfold validateRecoupNonWaterfallRecipient.
  split; [|split; [|split; [|split]]].
  - intros -> Hidx. destruct index as [i|]; [|congruence].
    simpl. eauto.
  - intros Hne ->. apply String.eqb_neq in Hne. rewrite Hne. eauto.
  - intros -> ->. reflexivity.
  - intros i Hne -> Hi. apply String.eqb_neq in Hne. rewrite Hne.
    replace ((0 <=? i) && (i <? Z.of_nat numTranches))%Z with true; [reflexivity|].
    symmetry. apply andb_true_iff. split; [apply Z.leb_le|apply Z.ltb_lt]; lia.
  - intros this config calls e Htok Hrec Htr Haddr Hidx -> Hpair.
    apply createRecoupTransaction_invalid.
    unfold validateCreateRecoup, validateRecoupNonWaterfallRecipient.
    unfold_monad. rewrite Haddr, Hidx. simpl.
    rewrite Htok, Hrec, Htr. exact Hpair.
Qed.

End Properties.

(** ** The properties at work on the sample collaborators *)

Import Sample.

Lemma TemplatesClient_chain_gate_witness :
  run (TemplatesClient_new plain (clientConfig 51 None None))
    = (Thrown (UnsupportedChainIdError 51 [1; 5; 137]%Z), [])
  /\ exists client,
       run (TemplatesClient_new plain (clientConfig 137 None None))
         = (Returned client, []).
Proof.
  assert (Hbase : forall chain, baseAccepts plain (clientConfig chain None None))
    by (intros chain ty; reflexivity).
  split.
  - apply (TemplatesClient_chain_gate plain (clientConfig 51 None None) [] (Hbase _)).
    compute_done.
  - apply (TemplatesClient_chain_gate plain (clientConfig 137 None None) [] (Hbase _)).
    compute_done.
Defined.

(** C1, as claimed, fails: on a client without provider, an ill-formed
    token makes [createRecoup] throw the validation error, not
    [MissingProviderError]. *)
Lemma validation_precedes_provider_check :
  let client := clientObjectOf plain noProviderConfig in
  run (TemplatesClient_new plain noProviderConfig) = (Returned client, [])
  /\ _provider (client_super client) = None
  /\ run (TemplatesClient_createRecoup plain client illFormedArgs)
       = (Thrown (ValidationError "address"
                    "address must be 20 bytes / checksum-valid"), [])
  /\ (run (TemplatesClient_createRecoup plain client illFormedArgs)).1
       <> Thrown MissingProviderError.
Proof.
  repeat split; discriminate.
Qed.

Lemma missing_provider_after_validation_witness :
  let client := clientObjectOf plain noProviderConfig in
  (run (TemplatesClient_createRecoup plain client goodArgs)
     = (Thrown MissingProviderError, [])
   /\ run (TemplatesGasEstimates_createRecoup plain (estimateGas client) goodArgs)
     = (Thrown MissingProviderError, [])
   /\ run (TemplatesCallData_createRecoup plain (callData client) goodArgs)
     = (Thrown MissingProviderError, []))
  /\ run (TemplatesClient_createRecoup plain client illFormedArgs)
     = (Thrown (ValidationError "address"
                  "address must be 20 bytes / checksum-valid"), []).
Proof.
  intros client. split.
  - destruct (missing_provider_after_validation plain client goodArgs [])
      as [Hvalid _]; [reflexivity..|].
    apply Hvalid. reflexivity.
  - destruct (missing_provider_after_validation plain client illFormedArgs [])
      as [_ Hinvalid]; [reflexivity..|].
    apply Hinvalid. reflexivity.
Defined.

Lemma signer_required_only_to_execute_witness :
  let client := clientObjectOf plain noSignerConfig in
  run (TemplatesClient_createRecoup plain client goodArgs)
    = (Thrown MissingSignerError, [])
  /\ run (TemplatesGasEstimates_createRecoup plain (estimateGas client) goodArgs)
    = (Returned 21000%Z, builderCalls TransactionType.GasEstimate)
  /\ run (TemplatesCallData_createRecoup plain (callData client) goodArgs)
    = (Returned sampleCallData, builderCalls TransactionType.CallData).
Proof.
  intros client.
  destruct (signer_required_only_to_execute plain noSignerConfig client goodArgs [] [])
    as (_ & _ & Hprovider);
    [intros ty; reflexivity | reflexivity | reflexivity | reflexivity |].
  destruct (Hprovider provider1 eq_refl) as [Hexecute Hothers].
  destruct (Hothers [10; 20]%Z [10; 20]%Z eq_refl) as [Hgas Hdata].
  split; [exact Hexecute|].
  split; [apply Hgas | apply Hdata]; reflexivity.
Defined.

Lemma same_arguments_in_every_mode_witness :
  let client := clientObjectOf plain fullConfig in
  let a := createRecoupArgsOf goodArgs [10; 20]%Z [10; 20]%Z in
  createRecoupCalls (run (TemplatesClient_createRecoup plain client goodArgs)).2 = [a]
  /\ createRecoupCalls
       (run (TemplatesGasEstimates_createRecoup plain (estimateGas client) goodArgs)).2
     = [a]
  /\ createRecoupCalls
       (run (TemplatesCallData_createRecoup plain (callData client) goodArgs)).2
     = [a].
Proof.
  intros client a.
  apply (same_arguments_in_every_mode plain fullConfig client goodArgs []
           provider1 signer1 [10; 20]%Z [10; 20]%Z);
    [intros ty; reflexivity | reflexivity..].
Defined.

Lemma invalid_response_guard_witness :
  run (TemplatesClient_createRecoup gasOnly (clientObjectOf gasOnly fullConfig) goodArgs)
    = (Thrown (Error "Invalid response"), builderCalls TransactionType.Transaction)
  /\ run (TemplatesGasEstimates_createRecoup transactionOnly
            (estimateGas (clientObjectOf transactionOnly fullConfig)) goodArgs)
    = (Thrown (Error "Invalid response"), builderCalls TransactionType.GasEstimate)
  /\ run (TemplatesCallData_createRecoup gasOnly
            (callData (clientObjectOf gasOnly fullConfig)) goodArgs)
    = (Thrown (Error "Invalid response"), builderCalls TransactionType.CallData).
Proof.
  split; [|split].
  - destruct (invalid_response_guard gasOnly (clientObjectOf gasOnly fullConfig)
                goodArgs [] (TxBigNumber 21000)
                (builderCalls TransactionType.Transaction)) as [Hexecute _].
    apply Hexecute; reflexivity.
  - destruct (invalid_response_guard transactionOnly
                (clientObjectOf transactionOnly fullConfig) goodArgs []
                (TxContractTransaction (minedWith []))
                (builderCalls TransactionType.GasEstimate)) as (_ & Hgas & _).
    apply Hgas; reflexivity.
  - destruct (invalid_response_guard gasOnly (clientObjectOf gasOnly fullConfig)
                goodArgs [] (TxBigNumber 21000)
                (builderCalls TransactionType.CallData)) as (_ & _ & Hdata).
    apply Hdata; reflexivity.
Defined.

Lemma createRecoup_no_matching_event_witness :
  run (TemplatesClient_createRecoup silent (clientObjectOf silent fullConfig) goodArgs)
    = (Thrown TransactionFailedError,
       builderCalls TransactionType.Transaction ++ [CallWait (minedWith [transferLog])]).
Proof.
  apply (createRecoup_no_matching_event silent (clientObjectOf silent fullConfig)
           goodArgs [] (minedWith [transferLog])
           (builderCalls TransactionType.Transaction) {| logs := [transferLog] |});
    [reflexivity | reflexivity |].
  repeat constructor. compute_done.
Defined.

Lemma createRecoup_first_matching_event_witness :
  run (TemplatesClient_createRecoup plain (clientObjectOf plain fullConfig) goodArgs)
    = (Returned {| waterfallModuleId := moduleAddress; event := createRecoupLog |},
       builderCalls TransactionType.Transaction
       ++ [CallWait (minedWith [transferLog; createRecoupLog])]).
Proof.
  apply (createRecoup_first_matching_event plain (clientObjectOf plain fullConfig)
           goodArgs [] (minedWith [transferLog; createRecoupLog])
           (builderCalls TransactionType.Transaction)
           {| logs := [transferLog; createRecoupLog] |}
           [transferLog] createRecoupLog [] {| waterfallModule := moduleAddress |});
    [reflexivity | reflexivity | reflexivity | | | reflexivity].
  - repeat constructor. compute_done.
  - compute_done.
Defined.

Lemma createRecoup_undecoded_event_witness :
  run (TemplatesClient_createRecoup undecoded (clientObjectOf undecoded fullConfig)
         goodArgs)
    = (Thrown TransactionFailedError,
       builderCalls TransactionType.Transaction
       ++ [CallWait (minedWith [transferLog; undecodedLog; createRecoupLog])]).
Proof.
  destruct (createRecoup_undecoded_event undecoded
              (clientObjectOf undecoded fullConfig) goodArgs []) as [Hundecoded _].
  apply (Hundecoded (minedWith [transferLog; undecodedLog; createRecoupLog])
           (builderCalls TransactionType.Transaction)
           {| logs := [transferLog; undecodedLog; createRecoupLog] |}
           [transferLog] undecodedLog [createRecoupLog]);
    [reflexivity | reflexivity | reflexivity | | | reflexivity].
  - repeat constructor. compute_done.
  - compute_done.
Defined.

Lemma nonWaterfallRecipient_pairing_witness :
  (exists msg, validateRecoupNonWaterfallRecipient 2 AddressZero (Some 0%Z)
                 = Thrown (InvalidArgumentError msg))
  /\ (exists msg, validateRecoupNonWaterfallRecipient 2 recipientAddress None
                 = Thrown (InvalidArgumentError msg))
  /\ validateRecoupNonWaterfallRecipient 2 AddressZero None = Returned ()
  /\ validateRecoupNonWaterfallRecipient 2 recipientAddress (Some 1%Z) = Returned ().
Proof.
  split; [|split; [|split]].
  - destruct (nonWaterfallRecipient_pairing plain 2 AddressZero (Some 0%Z))
      as (Hzero & _).
    apply Hzero; [reflexivity | discriminate].
  - destruct (nonWaterfallRecipient_pairing plain 2 recipientAddress None)
      as (_ & Hmissing & _).
    apply Hmissing; [discriminate | reflexivity].
  - destruct (nonWaterfallRecipient_pairing plain 2 AddressZero None)
      as (_ & _ & Hdefault & _).
    apply Hdefault; reflexivity.
  - destruct (nonWaterfallRecipient_pairing plain 2 recipientAddress (Some 1%Z))
      as (_ & _ & _ & Hvalid & _).
    apply (Hvalid 1%Z); [discriminate | reflexivity | lia].
Defined.

(** ** More about the templates client *)

Section ClientProperties.

Context {RecoupTrancheInput ContractRecoupTranche : Type}.
Variable E : @Collaborators RecoupTrancheInput ContractRecoupTranche.

Implicit Types (this : TemplatesTransactions).
Implicit Types (config : @CreateRecoupConfig RecoupTrancheInput).
Implicit Types (calls : list (@Call RecoupTrancheInput ContractRecoupTranche)).

(** *** Construction *)

(** The constructor, case by case: the inherited constructor in Execute
    mode, then the chain check, then the two sub-clients. *)
Lemma TemplatesClient_new_cases (cfg : SplitsClientConfig) calls :
  TemplatesClient_new E cfg calls =
    match baseConfigCheck E TransactionType.Transaction (withDefaults cfg) with
    | Thrown e => (Thrown e, calls)
    | Returned _ =>
        if bool_decide (chainId cfg ∈ TEMPLATES_CHAIN_IDS E) then
          match baseConfigCheck E TransactionType.CallData (withDefaults cfg) with
          | Thrown e => (Thrown e, calls)
          | Returned _ =>
              match baseConfigCheck E TransactionType.GasEstimate (withDefaults cfg) with
              | Thrown e => (Thrown e, calls)
              | Returned _ => (Returned (clientObjectOf E cfg), calls)
              end
          end
        else
          (Thrown (UnsupportedChainIdError (chainId cfg) (TEMPLATES_CHAIN_IDS E)),
           calls)
    end.
Proof.
  unfold TemplatesClient_new, TemplatesCallData_new, TemplatesGasEstimates_new.
  change (withDefaults (withDefaults cfg)) with (withDefaults cfg).
  unfold mbind at 1. unfold M_bind at 1.
  rewrite TemplatesTransactions_new_eq.
  destruct (baseConfigCheck E TransactionType.Transaction _); [|reflexivity].
  destruct (bool_decide (chainId cfg ∈ TEMPLATES_CHAIN_IDS E)); simpl;
    [|reflexivity].
  unfold mbind, M_bind, mret, M_ret.
  rewrite TemplatesTransactions_new_eq.
  destruct (baseConfigCheck E TransactionType.CallData _); [|reflexivity].
  rewrite TemplatesTransactions_new_eq.
  destruct (baseConfigCheck E TransactionType.GasEstimate _); reflexivity.
Qed.

(** X1. Order of the constructor's failures. A configuration the inherited
    constructor rejects makes [TemplatesClient]'s constructor throw that
    error, whatever the chain id; once the inherited constructor has
    accepted it, an unsupported chain id throws [UnsupportedChainIdError]
    before either sub-client is built. *)
Theorem constructor_failure_order (cfg : SplitsClientConfig) calls :
  (forall e,
     baseConfigCheck E TransactionType.Transaction (withDefaults cfg) = Thrown e ->
     TemplatesClient_new E cfg calls = (Thrown e, calls))
  /\ (baseConfigCheck E TransactionType.Transaction (withDefaults cfg) = Returned () ->
      chainId cfg ∉ TEMPLATES_CHAIN_IDS E ->
      TemplatesClient_new E cfg calls =
        (Thrown (UnsupportedChainIdError (chainId cfg) (TEMPLATES_CHAIN_IDS E)),
         calls)).
Proof.
  split.
  - intros e He. rewrite TemplatesClient_new_cases, He. reflexivity.
  - intros Hbase Hnot. rewrite TemplatesClient_new_cases, Hbase.
    rewrite bool_decide_eq_false_2 by assumption. reflexivity.
Qed.

(** X2. What a constructed client is. Whenever the constructor returns, it
    has called no collaborator, the chain id is a supported one, and the
    Execute, call-data and gas-estimate objects carry the modes
    Transaction, CallData and GasEstimate with the same chain id, provider,
    signer and contract address. *)
Theorem constructed_client_invariant (cfg : SplitsClientConfig) calls client calls' :
  TemplatesClient_new E cfg calls = (Returned client, calls') ->
  let objects := [client_super client; callData_super (callData client);
                  gasEstimates_super (estimateGas client)] in
  calls' = calls
  /\ chainId cfg ∈ TEMPLATES_CHAIN_IDS E
  /\ _transactionType <$> objects
       = [TransactionType.Transaction; TransactionType.CallData;
          TransactionType.GasEstimate]
  /\ Forall (fun this =>
       _chainId this = chainId cfg
       /\ _provider this = provider cfg
       /\ _signer this = signer cfg
       /\ contractAddress (_recoupContract this) = getRecoupAddress E (chainId cfg))
       objects.
Proof.
  rewrite TemplatesClient_new_cases.
  destruct (baseConfigCheck E TransactionType.Transaction _); [|discriminate].
  case_bool_decide as Hin; [|discriminate].
  destruct (baseConfigCheck E TransactionType.CallData _); [|discriminate].
  destruct (baseConfigCheck E TransactionType.GasEstimate _); [|discriminate].
  intros [= <- <-]. simpl.
  split; [reflexivity|]. split; [assumption|]. split; [reflexivity|].
  repeat constructor.
Qed.

(** *** What reaches the collaborators *)

Lemma awaited_app calls1 calls2 :
  awaited (calls1 ++ calls2) = awaited calls1 ++ awaited calls2.
Proof.
  induction calls1 as [|c calls1 IH]; [reflexivity|].
  destruct c; simpl; rewrite IH; reflexivity.
Qed.

(** The builder extends the history by nothing, by the formatter call, or
    by the formatter call and the contract call. *)
Lemma createRecoupTransaction_history this config calls :
  let out := _createRecoupTransaction E this config calls in
  out.2 = calls
  \/ (exists c1, out.2 = calls ++ [c1]
        /\ createRecoupCalls [c1] = [] /\ awaited [c1] = []
        /\ exists e, out.1 = Thrown e)
  \/ (exists c1 k t a, out.2 = calls ++ [c1; CallCreateRecoup k t a]
        /\ createRecoupCalls [c1] = [] /\ awaited [c1] = []
        /\ validateCreateRecoup E config = Returned ()
        /\ is_Some (_provider this)
        /\ (_shouldRequireSigner this = true -> is_Some (_signer this))).
Proof.
  intros out. subst out.
  destruct (validateCreateRecoup E config) as [[]|e] eqn:Hv.
  - rewrite createRecoupTransaction_valid by assumption.
    destruct (_provider this) as [p|] eqn:Hp; [|left; reflexivity].
    destruct (_shouldRequireSigner this) eqn:Hreq;
      destruct (_signer this) as [s|] eqn:Hs; simpl;
      try (left; reflexivity);
      (destruct (getRecoupTranchesAndSizes E _ _ _ p) as [[rt ts]|e];
       [right; right | right; left]; simpl; eauto 12);
      do 4 eexists; repeat split; eauto; discriminate.
  - rewrite (createRecoupTransaction_invalid _ _ _ _ e) by assumption.
    left. reflexivity.
Qed.

Lemma afterSubmit_history (client : TemplatesClient) t calls :
  (afterSubmit client t calls).2 = calls ++ [CallWait t].
Proof.
  unfold afterSubmit.
  destruct (wait t) as [receipt|e]; [destruct (firstMatch _ _) as [ev|];
    [destruct (args ev)|]|]; reflexivity.
Qed.

(** The contract calls of the Execute-mode [createRecoup] are those of the
    builder. *)
Lemma createRecoup_contract_calls (client : TemplatesClient) config calls :
  createRecoupCalls (TemplatesClient_createRecoup E client config calls).2
    = createRecoupCalls
        (_createRecoupTransaction E (client_super client) (explicitConfig config)
           calls).2.
Proof.
  rewrite TemplatesClient_createRecoup_eq, submitCreateRecoupTransaction_eq.
  destruct (_createRecoupTransaction E _ _ calls) as [[[t| |]|] calls1];
    try reflexivity.
  apply afterSubmit_calls.
Qed.

Lemma gasEstimates_history (g : TemplatesGasEstimates) config calls :
  (TemplatesGasEstimates_createRecoup E g config calls).2
    = (_createRecoupTransaction E (gasEstimates_super g) (explicitConfig config)
         calls).2.
Proof.
  rewrite TemplatesGasEstimates_createRecoup_eq.
  destruct (_createRecoupTransaction E _ _ calls) as [[[]|] calls1]; reflexivity.
Qed.

Lemma callData_history (d : TemplatesCallData) config calls :
  (TemplatesCallData_createRecoup E d config calls).2
    = (_createRecoupTransaction E (callData_super d) (explicitConfig config)
         calls).2.
Proof.
  rewrite TemplatesCallData_createRecoup_eq.
  destruct (_createRecoupTransaction E _ _ calls) as [[[]|] calls1]; reflexivity.
Qed.

Lemma builder_call_checked this config calls :
  createRecoupCalls (_createRecoupTransaction E this config calls).2
    <> createRecoupCalls calls ->
  validateCreateRecoup E config = Returned ()
  /\ is_Some (_provider this)
  /\ (_shouldRequireSigner this = true -> is_Some (_signer this)).
Proof.
  intros Hcall.
  destruct (createRecoupTransaction_history this config calls)
    as [Hsame | [(c1 & Hone & Hc1 & _) | (c1 & k & t & a & _ & _ & _ & Hchecked)]].
  - rewrite Hsame in Hcall. congruence.
  - rewrite Hone, createRecoupCalls_app, Hc1, app_nil_r in Hcall. congruence.
  - exact Hchecked.
Qed.

(** X3. Nothing unchecked reaches the contract. Whenever a [createRecoup]
    variant calls the contract, the arguments have passed validation, a
    provider is configured and, on an object that requires one, a signer. *)
Theorem contract_called_only_after_checks (client : TemplatesClient) config calls :
  (createRecoupCalls (TemplatesClient_createRecoup E client config calls).2
     <> createRecoupCalls calls ->
   validateCreateRecoup E config = Returned ()
   /\ is_Some (_provider (client_super client))
   /\ (_shouldRequireSigner (client_super client) = true ->
       is_Some (_signer (client_super client))))
  /\ (createRecoupCalls
        (TemplatesGasEstimates_createRecoup E (estimateGas client) config calls).2
        <> createRecoupCalls calls ->
      validateCreateRecoup E config = Returned ()
      /\ is_Some (_provider (gasEstimates_super (estimateGas client)))
      /\ (_shouldRequireSigner (gasEstimates_super (estimateGas client)) = true ->
          is_Some (_signer (gasEstimates_super (estimateGas client)))))
  /\ (createRecoupCalls
        (TemplatesCallData_createRecoup E (callData client) config calls).2
        <> createRecoupCalls calls ->
      validateCreateRecoup E config = Returned ()
      /\ is_Some (_provider (callData_super (callData client)))
      /\ (_shouldRequireSigner (callData_super (callData client)) = true ->
          is_Some (_signer (callData_super (callData client))))).
Proof.
  split; [|split].
  - rewrite createRecoup_contract_calls. intros Hcall.
    apply builder_call_checked in Hcall.
    rewrite validateCreateRecoup_explicit in Hcall. exact Hcall.
  - rewrite gasEstimates_history. intros Hcall.
    apply builder_call_checked in Hcall.
    rewrite validateCreateRecoup_explicit in Hcall. exact Hcall.
  - rewrite callData_history. intros Hcall.
    apply builder_call_checked in Hcall.
    rewrite validateCreateRecoup_explicit in Hcall. exact Hcall.
Qed.

(** X4. One contract call at most, and only the Execute mode waits. Each
    variant only appends to the call history and calls the contract at most
    once; the gas-estimate and call-data variants never await a
    transaction, and the Execute-mode variant awaits at most one. *)
Theorem variants_extend_history (client : TemplatesClient) config calls :
  (exists new,
     (TemplatesClient_createRecoup E client config calls).2 = calls ++ new
     /\ (length (createRecoupCalls new) <= 1)%nat
     /\ (length (awaited new) <= 1)%nat)
  /\ (exists new,
     (TemplatesGasEstimates_createRecoup E (estimateGas client) config calls).2
       = calls ++ new
     /\ (length (createRecoupCalls new) <= 1)%nat
     /\ awaited new = [])
  /\ (exists new,
     (TemplatesCallData_createRecoup E (callData client) config calls).2
       = calls ++ new
     /\ (length (createRecoupCalls new) <= 1)%nat
     /\ awaited new = []).
Proof.
  assert (Hbuilder : forall this cfg,
    exists new, (_createRecoupTransaction E this cfg calls).2 = calls ++ new
                /\ (length (createRecoupCalls new) <= 1)%nat /\ awaited new = []).
  { intros this cfg.
    destruct (createRecoupTransaction_history this cfg calls)
      as [Hsame | [(c1 & Hone & Hc1 & Hw1 & _)
                  | (c1 & k & t & a & Htwo & Hc1 & Hw1 & _)]].
    - exists []. rewrite app_nil_r. simpl. auto.
    - exists [c1]. rewrite Hc1, Hw1. simpl. auto.
    - exists [c1; CallCreateRecoup k t a]. split; [exact Htwo|].
      change [c1; CallCreateRecoup k t a] with ([c1] ++ [CallCreateRecoup k t a]).
      rewrite createRecoupCalls_app, awaited_app, Hc1, Hw1. simpl. auto. }
  split; [|split].
  - rewrite TemplatesClient_createRecoup_eq, submitCreateRecoupTransaction_eq.
    destruct (Hbuilder (client_super client) (explicitConfig config))
      as (new & Hnew & Hone & Hwait).
    destruct (_createRecoupTransaction E _ _ calls) as [[[t| |]|] calls1];
      simpl in Hnew; subst calls1;
      try (exists new; rewrite Hwait; simpl; auto; fail).
    exists (new ++ [CallWait t]). rewrite afterSubmit_history, app_assoc.
    rewrite createRecoupCalls_app, awaited_app, Hwait, app_nil_r. simpl. auto.
  - rewrite gasEstimates_history. apply Hbuilder.
  - rewrite callData_history. apply Hbuilder.
Qed.

(** *** Failures of the collaborators *)

Lemma TemplatesClient_new_object (cfg : SplitsClientConfig) calls client calls' :
  TemplatesClient_new E cfg calls = (Returned client, calls') ->
  client = clientObjectOf E cfg.
Proof.
  rewrite TemplatesClient_new_cases.
  destruct (baseConfigCheck E TransactionType.Transaction _); [|discriminate].
  case_bool_decide; [|discriminate].
  destruct (baseConfigCheck E TransactionType.CallData _); [|discriminate].
  destruct (baseConfigCheck E TransactionType.GasEstimate _); [|discriminate].
  intros [= <- _]. reflexivity.
Qed.

(** *** Result shapes *)

(** C6. The shape of what a variant returns is that of its mode, and each
    mode does return it. On a client built by the constructor with provider
    and signer, for arguments that pass validation and a formatter that
    answers: when the contract hands back a transaction that is mined with
    a decoded matching log, the Execute-mode [createRecoup] returns that
    event with the identifier decoded from it; when it hands back a gas
    quantity, the gas-estimate variant returns that number; when it hands
    back a call-data object, the call-data variant returns that object.
    Conversely, on any client, when the Execute-mode [createRecoup]
    returns, the builder handed back a contract transaction and the result
    pairs a matched event with the identifier decoded from it; when the
    gas-estimate variant returns a number, the builder handed back that gas
    quantity; when the call-data variant returns, the builder handed back
    that call-data object. *)
Theorem result_shape_by_mode (client : TemplatesClient) config calls :
  (forall (cfg : SplitsClientConfig) calls0 calls1 p s rt ts,
     TemplatesClient_new E cfg calls0 = (Returned client, calls1) ->
     provider cfg = Some p ->
     signer cfg = Some s ->
     validateCreateRecoup E config = Returned () ->
     getRecoupTranchesAndSizes E (chainId cfg) (token config) (tranches config) p
       = Returned (rt, ts) ->
     let a := createRecoupArgsOf config rt ts in
     let target := getRecoupAddress E (chainId cfg) in
     let c1 := CallGetRecoupTranchesAndSizes (chainId cfg) (token config)
                 (tranches config) p in
     (forall t receipt pre ev post d,
        recoupCreateRecoup E TransactionType.Transaction target a
          = Returned (TxContractTransaction t) ->
        wait t = Returned receipt ->
        logs receipt = pre ++ ev :: post ->
        Forall (fun e => topic e ∉ eventTopics client !!! "createRecoup") pre ->
        topic ev ∈ eventTopics client !!! "createRecoup" ->
        args ev = Some d ->
        TemplatesClient_createRecoup E client config calls
          = (Returned {| waterfallModuleId := waterfallModule d; event := ev |},
             calls ++ [c1; CallCreateRecoup TransactionType.Transaction target a;
                       CallWait t]))
     /\ (forall n,
        recoupCreateRecoup E TransactionType.GasEstimate target a
          = Returned (TxBigNumber n) ->
        TemplatesGasEstimates_createRecoup E (estimateGas client) config calls
          = (Returned n,
             calls ++ [c1; CallCreateRecoup TransactionType.GasEstimate target a]))
     /\ (forall c,
        recoupCreateRecoup E TransactionType.CallData target a
          = Returned (TxCallData c) ->
        TemplatesCallData_createRecoup E (callData client) config calls
          = (Returned c,
             calls ++ [c1; CallCreateRecoup TransactionType.CallData target a])))
  /\ (forall res calls',
       TemplatesClient_createRecoup E client config calls = (Returned res, calls') ->
       (exists t calls1,
          _createRecoupTransaction E (client_super client) (explicitConfig config) calls
            = (Returned (TxContractTransaction t), calls1))
       /\ exists a, args (event res) = Some a
                    /\ waterfallModuleId res = waterfallModule a)
  /\ (forall n calls',
       TemplatesGasEstimates_createRecoup E (estimateGas client) config calls
         = (Returned n, calls') ->
       _createRecoupTransaction E (gasEstimates_super (estimateGas client))
         (explicitConfig config) calls = (Returned (TxBigNumber n), calls'))
  /\ (forall c calls',
       TemplatesCallData_createRecoup E (callData client) config calls
         = (Returned c, calls') ->
       _createRecoupTransaction E (callData_super (callData client))
         (explicitConfig config) calls = (Returned (TxCallData c), calls')).
Proof.
  split; [|split; [|split]].
  - intros cfg calls0 calls1 p s rt ts Hnew Hp Hs Hv Hfmt a target c1.
    apply TemplatesClient_new_object in Hnew as ->.
    rewrite <- validateCreateRecoup_explicit in Hv.
    rewrite TemplatesClient_createRecoup_eq, submitCreateRecoupTransaction_eq,
      TemplatesGasEstimates_createRecoup_eq, TemplatesCallData_createRecoup_eq.
    rewrite !createRecoupTransaction_valid by assumption.
    cbn [clientObjectOf client_super estimateGas callData gasEstimates_super
         callData_super transactionsOf _provider _signer _shouldRequireSigner
         _chainId _recoupContract _getRecoupContract _getTransactionContract
         contractKind contractAddress TransactionType.eqb explicitConfig token
         tranches andb negb].
    rewrite Hp, Hs, Hfmt.
    cbn [bool_decide andb negb].
    rewrite createRecoupArgsOf_explicit. fold a target c1.
    split; [|split].
    + intros t receipt pre ev post d Hresp Hwait Hlogs Hpre Hev Hargs.
      simpl. rewrite Hresp. unfold afterSubmit. cbn [tx].
      rewrite Hwait, Hlogs, (firstMatch_at _ pre ev post Hpre Hev), Hargs.
      rewrite <- app_assoc. reflexivity.
    + intros n Hn. simpl. rewrite Hn. reflexivity.
    + intros c Hc. simpl. rewrite Hc. reflexivity.
  - intros res calls' Hres.
    apply createRecoup_returned in Hres
      as (t & calls1 & _ & a & Ht & _ & _ & _ & Ha & Hid).
    split; [exists t, calls1; exact Ht | exists a; auto].
  - intros n calls'. rewrite TemplatesGasEstimates_createRecoup_eq.
    destruct (_createRecoupTransaction E _ _ calls) as [[[]|] calls1];
      intros [= <- <-]; reflexivity.
  - intros c calls'. rewrite TemplatesCallData_createRecoup_eq.
    destruct (_createRecoupTransaction E _ _ calls) as [[[]|] calls1];
      intros [= <- <-]; reflexivity.
Qed.

(** X5. A failing formatter ends the call. When [getRecoupTranchesAndSizes]
    throws, each [createRecoup] variant throws that same error and the
    contract is never called. *)
Theorem formatter_failure_propagates (cfg : SplitsClientConfig)
    (client : TemplatesClient) config calls0 calls1 calls p e :
  TemplatesClient_new E cfg calls0 = (Returned client, calls1) ->
  provider cfg = Some p ->
  validateCreateRecoup E config = Returned () ->
  getRecoupTranchesAndSizes E (chainId cfg) (token config) (tranches config) p
    = Thrown e ->
  let c1 := CallGetRecoupTranchesAndSizes (chainId cfg) (token config)
              (tranches config) p in
  (is_Some (signer cfg) ->
     TemplatesClient_createRecoup E client config calls = (Thrown e, calls ++ [c1]))
  /\ TemplatesGasEstimates_createRecoup E (estimateGas client) config calls
       = (Thrown e, calls ++ [c1])
  /\ TemplatesCallData_createRecoup E (callData client) config calls
       = (Thrown e, calls ++ [c1]).
Proof.
  intros Hnew Hp Hv Hfmt c1.
  apply TemplatesClient_new_object in Hnew as ->.
  rewrite <- validateCreateRecoup_explicit in Hv.
  rewrite TemplatesClient_createRecoup_eq, submitCreateRecoupTransaction_eq,
    TemplatesGasEstimates_createRecoup_eq, TemplatesCallData_createRecoup_eq.
  rewrite !createRecoupTransaction_valid by assumption.
  simpl. rewrite Hp, Hfmt. simpl.
  split; [|split; reflexivity].
  intros [s Hs]. rewrite Hs. reflexivity.
Qed.

(** X6. A failing contract call ends the call. When the contract object
    throws, each [createRecoup] variant throws that same error; in Execute
    mode nothing is awaited. *)
Theorem contract_failure_propagates (cfg : SplitsClientConfig)
    (client : TemplatesClient) config calls0 calls1 calls p rt ts :
  TemplatesClient_new E cfg calls0 = (Returned client, calls1) ->
  provider cfg = Some p ->
  validateCreateRecoup E config = Returned () ->
  getRecoupTranchesAndSizes E (chainId cfg) (token config) (tranches config) p
    = Returned (rt, ts) ->
  let c1 := CallGetRecoupTranchesAndSizes (chainId cfg) (token config)
              (tranches config) p in
  let a := createRecoupArgsOf config rt ts in
  let target := getRecoupAddress E (chainId cfg) in
  (forall e, is_Some (signer cfg) ->
     recoupCreateRecoup E TransactionType.Transaction target a = Thrown e ->
     TemplatesClient_createRecoup E client config calls
       = (Thrown e, calls ++ [c1; CallCreateRecoup TransactionType.Transaction target a]))
  /\ (forall e,
     recoupCreateRecoup E TransactionType.GasEstimate target a = Thrown e ->
     TemplatesGasEstimates_createRecoup E (estimateGas client) config calls
       = (Thrown e, calls ++ [c1; CallCreateRecoup TransactionType.GasEstimate target a]))
  /\ (forall e,
     recoupCreateRecoup E TransactionType.CallData target a = Thrown e ->
     TemplatesCallData_createRecoup E (callData client) config calls
       = (Thrown e, calls ++ [c1; CallCreateRecoup TransactionType.CallData target a])).
Proof.
  intros Hnew Hp Hv Hfmt c1 a target.
  apply TemplatesClient_new_object in Hnew as ->.
  rewrite <- validateCreateRecoup_explicit in Hv.
  rewrite TemplatesClient_createRecoup_eq, submitCreateRecoupTransaction_eq,
    TemplatesGasEstimates_createRecoup_eq, TemplatesCallData_createRecoup_eq.
  rewrite !createRecoupTransaction_valid by assumption.
  simpl. rewrite Hp, Hfmt. simpl.
  rewrite createRecoupArgsOf_explicit. fold a target c1.
  split; [|split].
  - intros e [s Hs] He. rewrite Hs, He. reflexivity.
  - intros e He. rewrite He. reflexivity.
  - intros e He. rewrite He. reflexivity.
Qed.

(** X7. [createRecoup] is [submitCreateRecoupTransaction] followed by the
    wait for its events. A failed submission is the failure of
    [createRecoup], with nothing awaited; after a successful one, exactly
    the submitted transaction is awaited, and a failure of that wait is
    thrown as it is. *)
Theorem createRecoup_after_submit (client : TemplatesClient) config calls calls' :
  (forall e,
     submitCreateRecoupTransaction E client config calls = (Thrown e, calls') ->
     TemplatesClient_createRecoup E client config calls = (Thrown e, calls'))
  /\ (forall r,
     submitCreateRecoupTransaction E client config calls = (Returned r, calls') ->
     (TemplatesClient_createRecoup E client config calls).2
       = calls' ++ [CallWait (tx r)]
     /\ forall e, wait (tx r) = Thrown e ->
          TemplatesClient_createRecoup E client config calls
            = (Thrown e, calls' ++ [CallWait (tx r)])).
Proof.
  split.
  - intros e Hsubmit. rewrite TemplatesClient_createRecoup_eq, Hsubmit. reflexivity.
  - intros r Hsubmit. rewrite TemplatesClient_createRecoup_eq, Hsubmit.
    split; [apply afterSubmit_history|].
    intros e Hwait. unfold afterSubmit. rewrite Hwait. reflexivity.
Qed.

End ClientProperties.

(** ** The create-split form: properties *)

Section FormProperties.

Context {number : Type} `{EqDecision number}.
Context {Recipient : Type}.
Variable plus : number -> number -> number.
Variable numeral : Z -> number.
Variable toString : number -> string.
Variable percentAllocation : Recipient -> number.
Variable chainLabel : Z -> string.

Implicit Types (l seen opts : list number) (x v def : number).
Implicit Types (recipients : list Recipient) (chain : option Chain).

(** Drop the section's operations a statement does not mention. *)
Ltac unused_operations :=
  try clear plus; try clear numeral; try clear toString;
  try clear percentAllocation; try clear chainLabel.

(** *** The submit button and its tooltip *)

Lemma wrong_chain_truthy (chainId : Z) chain :
  truthy (isWrongChain chainId chain) = false
  <-> forall c, chain = Some c -> chain_id c = chainId.
Proof using Type.
  unused_operations.
  destruct chain as [[i]|]; simpl.
  - rewrite negb_false_iff, Z.eqb_eq. split.
    + intros -> c [= <-]. reflexivity.
    + intros Hc. symmetry. exact (Hc _ eq_refl).
  - split; [intros _ c; discriminate | reflexivity].
Qed.

(** X8. The submit button is enabled exactly when the wallet is connected,
    it is not on another chain (no chain at all does not count as a wrong
    one), the form is valid and the allocations add up to 100. With no
    recipient the total is 0, so the button is disabled. *)
Theorem submit_button_enabled_iff (chainId : Z) (isConnected : bool) chain
    (isFormValid : bool) recipients :
  (isButtonDisabled plus numeral percentAllocation chainId isConnected chain
     isFormValid recipients = false
   <-> isConnected = true
       /\ (forall c, chain = Some c -> chain_id c = chainId)
       /\ isFormValid = true
       /\ recipientAllocationTotal plus numeral percentAllocation recipients
            = numeral 100)
  /\ (numeral 0 <> numeral 100 ->
      isButtonDisabled plus numeral percentAllocation chainId isConnected chain
        isFormValid [] = true).
Proof using Type.
  unused_operations.
  unfold isButtonDisabled, isFullyAllocated. split.
  - rewrite !orb_false_iff, !negb_false_iff, wrong_chain_truthy,
      bool_decide_eq_true.
    split; [intros [[[? ?] ?] ?] | intros (? & ? & ? & ?)]; auto.
  - intros Hne. rewrite !orb_true_iff. right.
    apply negb_true_iff, bool_decide_eq_false. exact Hne.
Qed.

(** X9. The tooltip goes with its message: it is active exactly when its
    content is not empty (wrong chain, or no wallet connected), and an
    enabled submit button never has an active tooltip. *)
Theorem tooltip_matches_button (chainId : Z) (isConnected : bool) chain :
  (tooltipIsDisabled chainId isConnected chain = false
   <-> tooltipContent chainLabel chainId isConnected chain <> "")
  /\ (forall (isFormValid : bool) recipients,
        isButtonDisabled plus numeral percentAllocation chainId isConnected chain
          isFormValid recipients = false ->
        tooltipIsDisabled chainId isConnected chain = true
        /\ tooltipContent chainLabel chainId isConnected chain = "").
Proof using Type.
  unused_operations.
  unfold tooltipIsDisabled, tooltipContent, isButtonDisabled. split.
  - destruct (truthy (isWrongChain chainId chain)), isConnected; simpl;
      split; intros Hx; try reflexivity; try discriminate; congruence.
  - intros isFormValid recipients.
    rewrite !orb_false_iff, negb_false_iff. intros (((-> & ->) & _) & _).
    split; reflexivity.
Qed.

(** *** Submitting *)

Section Submit.

Variable createSplit :
  @CreateSplitConfig number Recipient -> Completion (option (list SplitEvent)).

(** X10. What the submit handler tells [onSuccess]. When [createSplit]
    throws or resolves to undefined the callback is not called. When it
    resolves to an array the callback, if given, is called once with the
    first event: an empty array gives (undefined, undefined), and the split
    id is the event's decoded [split] argument, undefined when the event
    is not decoded or has no such argument. *)
Theorem onSubmit_reports_first_event (data : CreateSplitFormData) :
  let args := {| config_recipients := recipients data;
                 distributorFeePercent := distributorFee data;
                 config_controller := controller data |} in
  (forall given e, createSplit args = Thrown e ->
     onSubmit createSplit given data = Thrown e)
  /\ (forall given, createSplit args = Returned None ->
     onSubmit createSplit given data = Returned [])
  /\ (forall events, createSplit args = Returned (Some events) ->
     onSubmit createSplit false data = Returned [])
  /\ (createSplit args = Returned (Some []) ->
     onSubmit createSplit true data = Returned [(None, None)])
  /\ (forall ev rest, createSplit args = Returned (Some (ev :: rest)) ->
     exists splitId,
       onSubmit createSplit true data = Returned [(splitId, Some ev)]
       /\ (forall id, splitId = Some id
             <-> exists decoded, event_args ev = Some decoded
                                 /\ decoded !! "split" = Some id)).
Proof using Type.
  unused_operations.
  intros args. unfold onSubmit. fold args.
  repeat split.
  - intros given e ->. reflexivity.
  - intros given ->. reflexivity.
  - intros events ->. reflexivity.
  - intros ->. reflexivity.
  - intros ev rest ->. simpl.
    eexists. split; [reflexivity|].
    intros id. destruct (event_args ev) as [decoded|]; simpl.
    + split; [eauto|]. intros (d & [= <-] & Hd). exact Hd.
    + split; [discriminate|]. intros (d & Hd & _). discriminate.
Qed.

End Submit.

(** *** The distributor-fee selector *)

Lemma uniq_from_elem seen l x :
  x ∈ foldl (fun seen x => if decide (x ∈ seen) then seen else seen ++ [x]) seen l
  <-> x ∈ seen \/ x ∈ l.
Proof using Type.
  unused_operations.
  revert seen. induction l as [|y l IH]; intros seen; simpl.
  - rewrite elem_of_nil. tauto.
  - rewrite IH, elem_of_cons. destruct (decide (y ∈ seen)) as [Hy|Hy].
    + split; [tauto|]. intros [Hx|[->|Hx]]; auto.
    + rewrite elem_of_app, list_elem_of_singleton. tauto.
Qed.

Lemma uniq_from_NoDup seen l :
  NoDup seen ->
  NoDup (foldl (fun seen x => if decide (x ∈ seen) then seen else seen ++ [x]) seen l).
Proof using Type.
  unused_operations.
  revert seen. induction l as [|y l IH]; intros seen Hseen; simpl; [assumption|].
  apply IH. destruct (decide (y ∈ seen)) as [Hy|Hy]; [assumption|].
  apply NoDup_app. split; [assumption|]. split; [|apply NoDup_singleton].
  intros x Hx ->%list_elem_of_singleton. contradiction.
Qed.

Lemma lodash_uniq_elem l x : x ∈ lodash_uniq l <-> x ∈ l.
Proof using Type.
  unused_operations.
  unfold lodash_uniq. rewrite uniq_from_elem, elem_of_nil. tauto.
Qed.

Lemma lodash_uniq_NoDup l : NoDup (lodash_uniq l).
Proof using Type. unused_operations. apply uniq_from_NoDup, NoDup_nil_2. Qed.

Lemma insertByString_Permutation x l : insertByString toString x l ≡ₚ x :: l.
Proof using Type.
  unused_operations.
  induction l as [|y l IH]; simpl; [reflexivity|].
  destruct (String.ltb (toString y) (toString x)); [|reflexivity].
  rewrite IH. apply Permutation_swap.
Qed.

Lemma Array_sort_Permutation l : Array_sort toString l ≡ₚ l.
Proof using Type.
  unused_operations.
  induction l as [|x l IH]; simpl; [reflexivity|].
  rewrite insertByString_Permutation, IH. reflexivity.
Qed.

Lemma ltb_asym (s1 s2 : string) :
  String.ltb s1 s2 = true -> String.ltb s2 s1 = false.
Proof using Type.
  unused_operations.
  unfold String.ltb. rewrite (String.compare_antisym s1 s2).
  destruct (String.compare s2 s1); simpl; congruence.
Qed.

Lemma insertByString_Sorted x l :
  Sorted (stringOrdered toString) l -> Sorted (stringOrdered toString) (insertByString toString x l).
Proof using Type.
  unused_operations.
  induction 1 as [|y l Hl IH Hhd]; simpl; [repeat constructor|].
  destruct (String.ltb (toString y) (toString x)) eqn:Hyx.
  - constructor; [exact IH|].
    destruct Hhd as [|z l Hyz]; simpl.
    + constructor. unfold stringOrdered. apply ltb_asym. exact Hyx.
    + destruct (String.ltb (toString z) (toString x)); constructor;
        [exact Hyz | unfold stringOrdered; apply ltb_asym; exact Hyx].
  - constructor; [constructor; assumption|]. constructor. exact Hyx.
Qed.

Lemma Array_sort_Sorted l : Sorted (stringOrdered toString) (Array_sort toString l).
Proof using Type.
  unused_operations.
  induction l as [|x l IH]; simpl; [constructor|].
  apply insertByString_Sorted. exact IH.
Qed.

Lemma fee_option_values opts def :
  option_value <$> distributorFeeOptions numeral toString opts def
    = Array_sort toString (lodash_uniq (opts ++ [def])) ++ [numeral 0].
Proof using Type.
  unused_operations.
  unfold distributorFeeOptions. rewrite fmap_app, <- list_fmap_compose. simpl.
  f_equal. apply list_fmap_id.
Qed.

(** X11. The fees on offer. A value is offered by the selector exactly when
    it is one of the configured options, the default fee, or 0. *)
Theorem fee_options_offer opts def v :
  v ∈ option_value <$> distributorFeeOptions numeral toString opts def
  <-> v ∈ opts \/ v = def \/ v = numeral 0.
Proof using Type.
  unused_operations.
  rewrite fee_option_values, elem_of_app, Array_sort_Permutation,
    lodash_uniq_elem, elem_of_app, !list_elem_of_singleton. tauto.
Qed.

(** X12. The order of the selector. The entries are the distinct fees, each
    once, in ascending order of the strings they print as (not of their
    numeric values), followed by the manual-distribution entry of value 0;
    so there are always at least two entries. *)
Theorem fee_options_layout opts def :
  exists fees,
    distributorFeeOptions numeral toString opts def
      = ((fun v => {| option_value := v; option_display := toString v +:+ "%" |})
           <$> fees) ++ [manualOption numeral]
    /\ NoDup fees
    /\ Sorted (stringOrdered toString) fees
    /\ (forall v, v ∈ fees <-> v ∈ opts \/ v = def)
    /\ (2 <= length (distributorFeeOptions numeral toString opts def))%nat.
Proof using Type.
  unused_operations.
  exists (Array_sort toString (lodash_uniq (opts ++ [def]))).
  split; [reflexivity|]. split.
  { rewrite Array_sort_Permutation. apply lodash_uniq_NoDup. }
  split; [apply Array_sort_Sorted|].
  assert (Hmem : forall v,
    v ∈ Array_sort toString (lodash_uniq (opts ++ [def])) <-> v ∈ opts \/ v = def).
  { intros v. rewrite Array_sort_Permutation, lodash_uniq_elem, elem_of_app,
      list_elem_of_singleton. tauto. }
  split; [exact Hmem|].
  unfold distributorFeeOptions. rewrite length_app, length_fmap. simpl.
  destruct (Array_sort toString (lodash_uniq (opts ++ [def]))) as [|x l] eqn:Hs;
    simpl; [|lia].
  exfalso. apply (elem_of_nil def), Hmem. auto.
Qed.

(** X13. Zero twice. The manual-distribution entry is added after the
    duplicates are removed: the values on offer are pairwise distinct
    exactly when 0 is neither a configured option nor the default fee;
    otherwise 0 is offered twice. *)
Theorem fee_options_distinct_iff opts def :
  NoDup (option_value <$> distributorFeeOptions numeral toString opts def)
  <-> (numeral 0 ∉ opts) /\ def <> numeral 0.
Proof using Type.
  unused_operations.
  rewrite fee_option_values, NoDup_app.
  assert (Hmem : forall v,
    v ∈ Array_sort toString (lodash_uniq (opts ++ [def])) <-> v ∈ opts \/ v = def).
  { intros v. rewrite Array_sort_Permutation, lodash_uniq_elem, elem_of_app,
      list_elem_of_singleton. tauto. }
  split.
  - intros (_ & Hdisj & _).
    assert (Hzero : ~ (numeral 0 ∈ opts \/ numeral 0 = def)).
    { intros Hin. apply (Hdisj (numeral 0)); [apply Hmem, Hin|].
      apply list_elem_of_singleton. reflexivity. }
    split; [tauto|]. intros Hdef. apply Hzero. right. congruence.
  - intros [Hopts Hdef]. split.
    { rewrite Array_sort_Permutation. apply lodash_uniq_NoDup. }
    split; [|apply NoDup_singleton].
    intros v Hv Hv0. apply list_elem_of_singleton in Hv0. subst v.
    apply Hmem in Hv as [Hv|Hv]; [contradiction|]. congruence.
Qed.

End FormProperties.

(** ** The further properties at work on the samples *)

Import SampleConfigs FormSample.

Lemma constructor_failure_order_witness :
  run (TemplatesClient_new plain ensNoProvider) = (Thrown InvalidConfigError, [])
  /\ run (TemplatesClient_new plain (clientConfig 51 None None))
       = (Thrown (UnsupportedChainIdError 51 [1; 5; 137]%Z), []).
Proof.
  split.
  - destruct (constructor_failure_order plain ensNoProvider []) as [Hbase _].
    apply Hbase. reflexivity.
  - destruct (constructor_failure_order plain (clientConfig 51 None None) [])
      as [_ Hchain].
    apply Hchain; [reflexivity | compute_done].
Defined.

Lemma constructed_client_invariant_witness :
  chainId fullConfig ∈ TEMPLATES_CHAIN_IDS plain
  /\ _signer (callData_super (callData (clientObjectOf plain fullConfig)))
       = Some signer1.
Proof.
  destruct (constructed_client_invariant plain fullConfig []
              (clientObjectOf plain fullConfig) [] eq_refl)
    as (_ & Hchain & _ & Hobjects).
  split; [exact Hchain|].
  apply Forall_cons in Hobjects as [_ Hobjects].
  apply Forall_cons in Hobjects as [(_ & _ & Hsigner & _) _].
  exact Hsigner.
Defined.

Lemma contract_called_only_after_checks_witness :
  validateCreateRecoup plain goodArgs = Returned ()
  /\ is_Some (_provider (client_super (clientObjectOf plain fullConfig)))
  /\ (_shouldRequireSigner (client_super (clientObjectOf plain fullConfig)) = true ->
      is_Some (_signer (client_super (clientObjectOf plain fullConfig)))).
Proof.
  destruct (contract_called_only_after_checks plain
              (clientObjectOf plain fullConfig) goodArgs []) as [Hexecute _].
  apply Hexecute. discriminate.
Defined.

Lemma formatter_failure_propagates_witness :
  let client := clientObjectOf formatterDown fullConfig in
  let c1 := CallGetRecoupTranchesAndSizes 1 tokenAddress [10; 20]%nat provider1 in
  run (TemplatesClient_createRecoup formatterDown client goodArgs)
    = (Thrown (Error "network down"), [c1])
  /\ run (TemplatesGasEstimates_createRecoup formatterDown (estimateGas client) goodArgs)
    = (Thrown (Error "network down"), [c1])
  /\ run (TemplatesCallData_createRecoup formatterDown (callData client) goodArgs)
    = (Thrown (Error "network down"), [c1]).
Proof.
  intros client c1.
  destruct (formatter_failure_propagates formatterDown fullConfig client goodArgs
              [] [] [] provider1 (Error "network down"))
    as (Hexecute & Hgas & Hdata); [reflexivity..|].
  split; [apply Hexecute; eexists; reflexivity|].
  split; [exact Hgas | exact Hdata].
Defined.

Lemma contract_failure_propagates_witness :
  let client := clientObjectOf contractDown fullConfig in
  run (TemplatesClient_createRecoup contractDown client goodArgs)
    = (Thrown (Error "execution reverted"), builderCalls TransactionType.Transaction)
  /\ run (TemplatesGasEstimates_createRecoup contractDown (estimateGas client) goodArgs)
    = (Thrown (Error "execution reverted"), builderCalls TransactionType.GasEstimate)
  /\ run (TemplatesCallData_createRecoup contractDown (callData client) goodArgs)
    = (Thrown (Error "execution reverted"), builderCalls TransactionType.CallData).
Proof.
  intros client.
  destruct (contract_failure_propagates contractDown fullConfig client goodArgs
              [] [] [] provider1 [10; 20]%Z [10; 20]%Z)
    as (Hexecute & Hgas & Hdata); [reflexivity..|].
  split; [apply Hexecute; [eexists|]; reflexivity|].
  split; [apply Hgas | apply Hdata]; reflexivity.
Defined.

Lemma createRecoup_after_submit_witness :
  run (TemplatesClient_createRecoup dropping (clientObjectOf dropping fullConfig)
         goodArgs)
    = (Thrown (Error "transaction failed"),
       builderCalls TransactionType.Transaction ++ [CallWait droppedTransaction])
  /\ run (TemplatesClient_createRecoup gasOnly (clientObjectOf gasOnly fullConfig)
            goodArgs)
    = (Thrown (Error "Invalid response"), builderCalls TransactionType.Transaction).
Proof.
  split.
  - destruct (createRecoup_after_submit dropping (clientObjectOf dropping fullConfig)
                goodArgs [] (builderCalls TransactionType.Transaction))
      as [_ Hsubmitted].
    destruct (Hsubmitted {| tx := droppedTransaction |} eq_refl) as [_ Hwait].
    apply Hwait. reflexivity.
  - destruct (createRecoup_after_submit gasOnly (clientObjectOf gasOnly fullConfig)
                goodArgs [] (builderCalls TransactionType.Transaction))
      as [Hfailed _].
    apply Hfailed. reflexivity.
Defined.

Lemma submit_button_enabled_iff_witness :
  isButtonDisabled Nat.add Z.to_nat (fun r : nat => r) 1 true
    (Some {| chain_id := 1 |}) true [60; 40]%nat = false
  /\ isButtonDisabled Nat.add Z.to_nat (fun r : nat => r) 1 true None true
       [60; 40]%nat = false
  /\ isButtonDisabled Nat.add Z.to_nat (fun r : nat => r) 1 true
       (Some {| chain_id := 1 |}) true [] = true.
Proof.
  split; [|split].
  - apply (submit_button_enabled_iff Nat.add Z.to_nat (fun r : nat => r) 1 true
             (Some {| chain_id := 1 |}) true [60; 40]%nat).
    repeat split. intros c [= <-]. reflexivity.
  - apply (submit_button_enabled_iff Nat.add Z.to_nat (fun r : nat => r) 1 true
             None true [60; 40]%nat).
    repeat split. intros c. discriminate.
  - apply (submit_button_enabled_iff Nat.add Z.to_nat (fun r : nat => r) 1 true
             (Some {| chain_id := 1 |}) true []).
    discriminate.
Defined.

Lemma tooltip_matches_button_witness :
  tooltipContent (fun _ => "Mainnet") 1 true (Some {| chain_id := 5 |}) <> ""
  /\ tooltipContent (fun _ => "Mainnet") 1 true (Some {| chain_id := 1 |}) = "".
Proof.
  split.
  - apply (tooltip_matches_button Nat.add Z.to_nat (fun r : nat => r)
             (fun _ => "Mainnet") 1 true (Some {| chain_id := 5 |})).
    reflexivity.
  - destruct (tooltip_matches_button Nat.add Z.to_nat (fun r : nat => r)
                (fun _ => "Mainnet") 1 true (Some {| chain_id := 1 |}))
      as [_ Henabled].
    apply (Henabled true [60; 40]%nat). reflexivity.
Defined.

Lemma onSubmit_reports_first_event_witness :
  onSubmit (fun _ => Returned (Some [])) true formData = Returned [(None, None)]
  /\ onSubmit (fun _ => Thrown (Error "rejected")) true formData
       = Thrown (Error "rejected")
  /\ exists splitId,
       onSubmit (fun _ => Returned (Some [otherEvent; decodedEvent])) true formData
         = Returned [(splitId, Some otherEvent)].
Proof.
  split; [|split].
  - destruct (onSubmit_reports_first_event (fun _ => Returned (Some [])) formData)
      as (_ & _ & _ & Hempty & _).
    apply Hempty. reflexivity.
  - destruct (onSubmit_reports_first_event (fun _ => Thrown (Error "rejected"))
                formData) as (Hthrown & _).
    apply Hthrown. reflexivity.
  - destruct (onSubmit_reports_first_event
                (fun _ => Returned (Some [otherEvent; decodedEvent])) formData)
      as (_ & _ & _ & _ & Hfirst).
    destruct (Hfirst otherEvent [decodedEvent] eq_refl) as (splitId & Hcall & _).
    exists splitId. exact Hcall.
Defined.

Lemma result_shape_by_mode_witness :
  let client := clientObjectOf plain fullConfig in
  run (TemplatesClient_createRecoup plain client goodArgs)
    = (Returned {| waterfallModuleId := moduleAddress; event := createRecoupLog |},
       builderCalls TransactionType.Transaction
       ++ [CallWait (minedWith [transferLog; createRecoupLog])])
  /\ run (TemplatesGasEstimates_createRecoup plain (estimateGas client) goodArgs)
    = (Returned 21000%Z, builderCalls TransactionType.GasEstimate)
  /\ run (TemplatesCallData_createRecoup plain (callData client) goodArgs)
    = (Returned sampleCallData, builderCalls TransactionType.CallData)
  /\ _createRecoupTransaction plain (gasEstimates_super (estimateGas client))
       (explicitConfig goodArgs) []
     = (Returned (TxBigNumber 21000), builderCalls TransactionType.GasEstimate).
Proof.
  intros client.
  destruct (result_shape_by_mode plain client goodArgs [])
    as (Hreturns & _ & Hgas_shape & _).
  destruct (Hreturns fullConfig [] [] provider1 signer1 [10; 20]%Z [10; 20]%Z
              eq_refl eq_refl eq_refl eq_refl eq_refl)
    as (Hexecute & Hgas & Hdata).
  split; [|split; [|split]].
  - apply (Hexecute (minedWith [transferLog; createRecoupLog])
             {| logs := [transferLog; createRecoupLog] |}
             [transferLog] createRecoupLog [] {| waterfallModule := moduleAddress |});
      [reflexivity | reflexivity | reflexivity | | | reflexivity].
    + repeat constructor. compute_done.
    + compute_done.
  - apply Hgas. reflexivity.
  - apply Hdata. reflexivity.
  - apply (Hgas_shape 21000%Z). apply Hgas. reflexivity.
Defined.
